(** * TechNeeti Marketing AI front end: orchestration core

    A shallow embedding of the client-side request handling of the
    React front end: the axios based request layer
    ([services/api.ts]), the context store ([AppContext]), the
    [FileUpload] component and the event handlers of the Forecast,
    ImageGenerator, SloganGenerator and YouTubeQA pages.

    JavaScript values are modelled after their TypeScript types:
    [string] as [String.string] (code units restricted to eight bits),
    [number] as IEEE binary64 ([PrimFloat.float]), nullable state as
    [option].  An [async] function is a finite tree of state updates
    and HTTP exchanges; the event loop keeps the suspended continuations
    and resumes one when its exchange settles. *)

From Stdlib Require Import String Ascii List Bool Arith Lia PrimFloat Sorted.
Import ListNotations.
Local Open Scope list_scope.
Local Open Scope string_scope.

(** ** JavaScript strings *)

Module JsString.

(** [WhiteSpace] and [LineTerminator] code units below 256, the ones
    [String.prototype.trim] strips. *)
Definition isWhiteSpace (c : ascii) : bool :=
  let n := nat_of_ascii c in
  Nat.eqb n 9 || Nat.eqb n 10 || Nat.eqb n 11 || Nat.eqb n 12
  || Nat.eqb n 13 || Nat.eqb n 32 || Nat.eqb n 160.

Fixpoint trimStart (s : string) : string :=
  match s with
  | EmptyString => EmptyString
  | String c s' => if isWhiteSpace c then trimStart s' else s
  end.

Fixpoint reverse_onto (s acc : string) : string :=
  match s with
  | EmptyString => acc
  | String c s' => reverse_onto s' (String c acc)
  end.

Definition reverse (s : string) : string := reverse_onto s EmptyString.

Definition trimEnd (s : string) : string := reverse (trimStart (reverse s)).

Definition trim (s : string) : string := trimEnd (trimStart s).

(** ToBoolean on a string: only the empty string is falsy. *)
Definition truthy (s : string) : bool :=
  match s with EmptyString => false | String _ _ => true end.

(** [s1] with [p] removed from its front, when [p] is a prefix. *)
Fixpoint stripPrefix (p s : string) : option string :=
  match p, s with
  | EmptyString, _ => Some s
  | String a p', String b s' =>
      if Ascii.eqb a b then stripPrefix p' s' else None
  | String _ _, EmptyString => None
  end.

(** [needle] occurs in [hay] as a contiguous run of code units. *)
Definition occursIn (needle hay : string) : Prop :=
  exists before after, hay = before ++ needle ++ after.

End JsString.

(** ** Regular expressions

    The fragment of ECMAScript patterns used by the YouTubeQA page:
    literals, alternation, concatenation, optional groups and a greedy
    [+] over a character class. *)

Module RegExp.

Inductive regex : Type :=
| Lit (s : string)
| Alt (r1 r2 : regex)
| Cat (r1 r2 : regex)
| Opt (r : regex)
| ClassPlus (cls : ascii -> bool).

(** The residual inputs after the longest, ..., shortest non-empty run
    of class members at the front of [s]. *)
Fixpoint classPlus (cls : ascii -> bool) (s : string) : list string :=
  match s with
  | EmptyString => []
  | String c s' => if cls c then (classPlus cls s' ++ [s'])%list else []
  end.

(** Backtracking matcher: every way [r] can match at the front of [s],
    as the list of what is left of [s], in the engine's priority
    order. *)
Fixpoint residuals (r : regex) (s : string) : list string :=
  match r with
  | Lit p =>
      match JsString.stripPrefix p s with
      | Some rest => [rest]
      | None => []
      end
  | Alt r1 r2 => (residuals r1 s ++ residuals r2 s)%list
  | Cat r1 r2 => flat_map (residuals r2) (residuals r1 s)
  | Opt r1 => (residuals r1 s ++ [s])%list
  | ClassPlus cls => classPlus cls s
  end.

(** [/^r/.test(s)]: the pattern is anchored at the start only. *)
Definition test_anchored (r : regex) (s : string) : bool :=
  match residuals r s with
  | [] => false
  | _ :: _ => true
  end.

(** The words of [r]. *)
Inductive matches : regex -> string -> Prop :=
| m_lit p : matches (Lit p) p
| m_alt_l r1 r2 w : matches r1 w -> matches (Alt r1 r2) w
| m_alt_r r1 r2 w : matches r2 w -> matches (Alt r1 r2) w
| m_cat r1 r2 w1 w2 :
    matches r1 w1 -> matches r2 w2 -> matches (Cat r1 r2) (w1 ++ w2)
| m_opt_some r w : matches r w -> matches (Opt r) w
| m_opt_none r : matches (Opt r) EmptyString
| m_plus_one cls c : cls c = true -> matches (ClassPlus cls) (String c EmptyString)
| m_plus_more cls c w :
    cls c = true -> matches (ClassPlus cls) w ->
    matches (ClassPlus cls) (String c w).

Definition isDigit (c : ascii) : bool :=
  let n := nat_of_ascii c in Nat.leb 48 n && Nat.leb n 57.
Definition isUpper (c : ascii) : bool :=
  let n := nat_of_ascii c in Nat.leb 65 n && Nat.leb n 90.
Definition isLower (c : ascii) : bool :=
  let n := nat_of_ascii c in Nat.leb 97 n && Nat.leb n 122.

(** [\w] *)
Definition isWord (c : ascii) : bool :=
  isUpper c || isLower c || isDigit c || Ascii.eqb c "_".

(** [[\w-]] *)
Definition isWordOrHyphen (c : ascii) : bool :=
  isWord c || Ascii.eqb c "-".

End RegExp.

(** ** Data model *)

(** JavaScript [number]. *)
Definition number : Set := float.

(** The DOM [File] objects handed over by a picker or a drop. *)
Module File.
Record t : Set := { name : string; size : number; type : string }.
End File.

(** [contexts/AppContext]: the forecast result shared by the pages and
    the global loading flag. *)
Module AppContext.

Record CampaignDetails : Set := {
  type : string;
  offer : string;
  target : string;
  discount : number;
  budget : number;
  target_size : number
}.

Record ReportLinks : Set := { html : string; pdf : string }.

Record ForecastResults : Set := {
  segment_count : number;
  recommended_campaign_type : string;
  recommended_offer : string;
  success_probability : number;
  privacy_compliance : bool;
  campaign_details : CampaignDetails;
  report_links : ReportLinks
}.

Record AppContextType : Set := {
  forecastResults : option ForecastResults;
  isLoading : bool
}.

(** What [AppProvider] starts with: [useState(null)], [useState(false)]. *)
Definition initial : AppContextType :=
  {| forecastResults := None; isLoading := false |}.

End AppContext.

(** [interface VideoInfo] of the YouTubeQA page. *)
Record VideoInfo : Set := {
  video_id : string;
  url : string;
  chunk_count : number;
  title : option string
}.

(** The JSON bodies the backend answers with, as the pages read them: a
    field is [None] when it is missing or [null].  The pages read the
    body untyped; here a field that is present has the type the page
    stores it at.  A body that is not an object, such as the empty
    string axios hands over for a reply without content, has none of
    the fields and reads as [empty]. *)
Module Backend.
Record ResponseData : Set := {
  status : option string;
  results : option AppContext.ForecastResults;
  image_url : option string;
  slogans : option (list string);
  video_info : option VideoInfo;
  answer : option string
}.

Definition empty : ResponseData :=
  {| status := None; results := None; image_url := None;
     slogans := None; video_info := None; answer := None |}.
End Backend.

(** One HTTP exchange as the transport sees it. *)
Module Http.
Inductive body : Set :=
| FormData (parts : list (string * File.t))
| Json (fields : list (string * string)).

Record request : Set := {
  path : string;
  payload : body;
  contentType : string
}.

(** [data] is [None] for a JSON [null] body, the one body whose
    properties cannot be read; every other body is [Some], a reply
    without content being [Some Backend.empty]. *)
Record response : Set := {
  status : nat;
  data : option Backend.ResponseData
}.

Inductive result : Set :=
| Responded (r : response)
| NetworkError.
End Http.

(** What a [catch] clause can receive. *)
Inductive exn : Set :=
| AxiosError (response : option Http.response)
| TypeError (message : string).

(** *** React state of the pages *)

Record ForecastState : Set := {
  customersFile : option File.t;
  campaignHistoryFile : option File.t
}.

Record ImageGeneratorState : Set := {
  prompt : string;
  generatedImage : option string
}.

Record SloganGeneratorState : Set := {
  context : string;
  slogans : list string
}.

Record YouTubeQAState : Set := {
  youtubeUrl : string;
  question : string;
  videoInfo : option VideoInfo;
  answer : string;
  isProcessing : bool;
  isQuerying : bool
}.

Inductive toast : Set :=
| ToastError (message : string)
| ToastSuccess (message : string).

(** The context, the hooks of the four pages, and what was shown to the
    user or written to the console, oldest first. *)
Record AppState : Set := {
  appContext : AppContext.AppContextType;
  forecast : ForecastState;
  imageGenerator : ImageGeneratorState;
  sloganGenerator : SloganGeneratorState;
  youTubeQA : YouTubeQAState;
  toasts : list toast;
  console : list string
}.

Definition initialState : AppState :=
  {| appContext := AppContext.initial;
     forecast := {| customersFile := None; campaignHistoryFile := None |};
     imageGenerator := {| prompt := ""; generatedImage := None |};
     sloganGenerator := {| context := ""; slogans := [] |};
     youTubeQA := {| youtubeUrl := ""; question := ""; videoInfo := None;
                     answer := ""; isProcessing := false; isQuerying := false |};
     toasts := [];
     console := [] |}.

(** *** State setters *)

Definition updContext (f : AppContext.AppContextType -> AppContext.AppContextType)
  (s : AppState) : AppState :=
  {| appContext := f (appContext s); forecast := forecast s;
     imageGenerator := imageGenerator s; sloganGenerator := sloganGenerator s;
     youTubeQA := youTubeQA s; toasts := toasts s; console := console s |}.

Definition updForecast (f : ForecastState -> ForecastState) (s : AppState) : AppState :=
  {| appContext := appContext s; forecast := f (forecast s);
     imageGenerator := imageGenerator s; sloganGenerator := sloganGenerator s;
     youTubeQA := youTubeQA s; toasts := toasts s; console := console s |}.

Definition updImageGenerator (f : ImageGeneratorState -> ImageGeneratorState)
  (s : AppState) : AppState :=
  {| appContext := appContext s; forecast := forecast s;
     imageGenerator := f (imageGenerator s); sloganGenerator := sloganGenerator s;
     youTubeQA := youTubeQA s; toasts := toasts s; console := console s |}.

Definition updSloganGenerator (f : SloganGeneratorState -> SloganGeneratorState)
  (s : AppState) : AppState :=
  {| appContext := appContext s; forecast := forecast s;
     imageGenerator := imageGenerator s; sloganGenerator := f (sloganGenerator s);
     youTubeQA := youTubeQA s; toasts := toasts s; console := console s |}.

Definition updYouTubeQA (f : YouTubeQAState -> YouTubeQAState) (s : AppState) : AppState :=
  {| appContext := appContext s; forecast := forecast s;
     imageGenerator := imageGenerator s; sloganGenerator := sloganGenerator s;
     youTubeQA := f (youTubeQA s); toasts := toasts s; console := console s |}.

Definition setForecastResults (v : option AppContext.ForecastResults) : AppState -> AppState :=
  updContext (fun c =>
    {| AppContext.forecastResults := v; AppContext.isLoading := AppContext.isLoading c |}).

Definition setIsLoading (v : bool) : AppState -> AppState :=
  updContext (fun c =>
    {| AppContext.forecastResults := AppContext.forecastResults c;
       AppContext.isLoading := v |}).

Definition setCustomersFile (v : option File.t) : AppState -> AppState :=
  updForecast (fun p =>
    {| customersFile := v; campaignHistoryFile := campaignHistoryFile p |}).

Definition setCampaignHistoryFile (v : option File.t) : AppState -> AppState :=
  updForecast (fun p =>
    {| customersFile := customersFile p; campaignHistoryFile := v |}).

Definition setPrompt (v : string) : AppState -> AppState :=
  updImageGenerator (fun p => {| prompt := v; generatedImage := generatedImage p |}).

Definition setGeneratedImage (v : option string) : AppState -> AppState :=
  updImageGenerator (fun p => {| prompt := prompt p; generatedImage := v |}).

Definition setContext (v : string) : AppState -> AppState :=
  updSloganGenerator (fun p => {| context := v; slogans := slogans p |}).

Definition setSlogans (v : list string) : AppState -> AppState :=
  updSloganGenerator (fun p => {| context := context p; slogans := v |}).

Definition setYoutubeUrl (v : string) : AppState -> AppState :=
  updYouTubeQA (fun p =>
    {| youtubeUrl := v; question := question p; videoInfo := videoInfo p;
       answer := answer p; isProcessing := isProcessing p;
       isQuerying := isQuerying p |}).

Definition setQuestion (v : string) : AppState -> AppState :=
  updYouTubeQA (fun p =>
    {| youtubeUrl := youtubeUrl p; question := v; videoInfo := videoInfo p;
       answer := answer p; isProcessing := isProcessing p;
       isQuerying := isQuerying p |}).

Definition setVideoInfo (v : option VideoInfo) : AppState -> AppState :=
  updYouTubeQA (fun p =>
    {| youtubeUrl := youtubeUrl p; question := question p; videoInfo := v;
       answer := answer p; isProcessing := isProcessing p;
       isQuerying := isQuerying p |}).

Definition setAnswer (v : string) : AppState -> AppState :=
  updYouTubeQA (fun p =>
    {| youtubeUrl := youtubeUrl p; question := question p; videoInfo := videoInfo p;
       answer := v; isProcessing := isProcessing p; isQuerying := isQuerying p |}).

Definition setIsProcessing (v : bool) : AppState -> AppState :=
  updYouTubeQA (fun p =>
    {| youtubeUrl := youtubeUrl p; question := question p; videoInfo := videoInfo p;
       answer := answer p; isProcessing := v; isQuerying := isQuerying p |}).

Definition setIsQuerying (v : bool) : AppState -> AppState :=
  updYouTubeQA (fun p =>
    {| youtubeUrl := youtubeUrl p; question := question p; videoInfo := videoInfo p;
       answer := answer p; isProcessing := isProcessing p; isQuerying := v |}).

Definition showToast (t : toast) (s : AppState) : AppState :=
  {| appContext := appContext s; forecast := forecast s;
     imageGenerator := imageGenerator s; sloganGenerator := sloganGenerator s;
     youTubeQA := youTubeQA s; toasts := (toasts s ++ [t])%list;
     console := console s |}.

Definition logError (label : string) (s : AppState) : AppState :=
  {| appContext := appContext s; forecast := forecast s;
     imageGenerator := imageGenerator s; sloganGenerator := sloganGenerator s;
     youTubeQA := youTubeQA s; toasts := toasts s;
     console := (console s ++ [label])%list |}.

(** ** Asynchronous functions

    The body of an [async] function up to its completion: it returns,
    throws, updates the state and goes on, or starts an HTTP exchange
    and goes on with whatever the exchange settles with. *)

Inductive async (A : Type) : Type :=
| Ret (a : A)
| Throw (e : exn)
| Update (f : AppState -> AppState) (k : async A)
| Exchange (req : Http.request) (k : Http.result -> async A).

Arguments Ret {A} a.
Arguments Throw {A} e.
Arguments Update {A} f k.
Arguments Exchange {A} req k.

Fixpoint bind {A B : Type} (m : async A) (f : A -> async B) : async B :=
  match m with
  | Ret a => f a
  | Throw e => Throw e
  | Update g k => Update g (bind k f)
  | Exchange req k => Exchange req (fun r => bind (k r) f)
  end.

(** [try { m } catch (e) { handler e }] *)
Fixpoint tryCatch {A : Type} (m : async A) (handler : exn -> async A) : async A :=
  match m with
  | Ret a => Ret a
  | Throw e => handler e
  | Update g k => Update g (tryCatch k handler)
  | Exchange req k => Exchange req (fun r => tryCatch (k r) handler)
  end.

(** [try { m } finally { cleanup }]: the cleanup runs on every way out
    of [m], and the completion of [m] is kept. *)
Fixpoint tryFinally {A : Type} (m : async A) (cleanup : async unit) : async A :=
  match m with
  | Ret a => bind cleanup (fun _ => Ret a)
  | Throw e => bind cleanup (fun _ => Throw e)
  | Update g k => Update g (tryFinally k cleanup)
  | Exchange req k => Exchange req (fun r => tryFinally (k r) cleanup)
  end.

Definition perform (f : AppState -> AppState) : async unit := Update f (Ret tt).

Declare Scope async_scope.
Delimit Scope async_scope with async.
Notation "x <- m ;; k" := (bind m (fun x => k))
  (at level 61, m at next level, right associativity) : async_scope.
Notation "m ;; k" := (bind m (fun _ => k))
  (at level 61, right associativity) : async_scope.
Local Open Scope async_scope.

Module toast.
Definition error (message : string) : async unit := perform (showToast (ToastError message)).
Definition success (message : string) : async unit := perform (showToast (ToastSuccess message)).
End toast.

Module console_.
Definition error (label : string) : async unit := perform (logError label).
End console_.

(** Reading a property of a response body: a [TypeError] when the body
    is [null] or [undefined]. *)
Definition member {T : Type} (response : option Backend.ResponseData)
  (field : Backend.ResponseData -> T) : async T :=
  match response with
  | Some body => Ret (field body)
  | None => Throw (TypeError "Cannot read properties of null")
  end.

(** ** axios *)

Module axios.

Record AxiosResponse : Set := {
  data : option Backend.ResponseData;
  status : nat
}.

(** The default status check: the promise is rejected outside 2xx. *)
Definition validateStatus (status : nat) : bool :=
  Nat.leb 200 status && Nat.ltb status 300.

Definition settle (r : Http.result) : async AxiosResponse :=
  match r with
  | Http.Responded resp =>
      if validateStatus (Http.status resp)
      then Ret {| data := Http.data resp; status := Http.status resp |}
      else Throw (AxiosError (Some resp))
  | Http.NetworkError => Throw (AxiosError None)
  end.

(** [instance.post(url, data, config)] *)
Definition post (url : string) (payload : Http.body) (contentType : string)
  : async AxiosResponse :=
  Exchange {| Http.path := url; Http.payload := payload;
              Http.contentType := contentType |} settle.

End axios.

(** ** services/api.ts *)

Module api.

Record ForecastRequest : Set := {
  customers_file : File.t;
  campaign_history_file : File.t
}.
Record ImageGenerationRequest : Set := { prompt : string }.
Record SloganGenerationRequest : Set := { context : string }.
Record RAGProcessRequest : Set := { youtube_url : string }.
Record RAGQueryRequest : Set := { question : string }.

(** The instance made by [axios.create]: a base URL and a JSON content
    type, nothing else; a call may override the content type. *)
Definition post (url : string) (payload : Http.body) (contentType : option string)
  : async axios.AxiosResponse :=
  axios.post url payload
    (match contentType with Some c => c | None => "application/json" end).

Definition runForecast (data : ForecastRequest) : async (option Backend.ResponseData) :=
  let formData :=
    [("customers_file", customers_file data);
     ("campaign_history_file", campaign_history_file data)] in
  response <- post "/forecast" (Http.FormData formData) (Some "multipart/form-data") ;;
  Ret (axios.data response).

Definition generateImage (data : ImageGenerationRequest)
  : async (option Backend.ResponseData) :=
  response <- post "/img" (Http.Json [("prompt", prompt data)]) None ;;
  Ret (axios.data response).

Definition generateSlogan (data : SloganGenerationRequest)
  : async (option Backend.ResponseData) :=
  response <- post "/slogan" (Http.Json [("context", context data)]) None ;;
  Ret (axios.data response).

Definition processVideo (data : RAGProcessRequest)
  : async (option Backend.ResponseData) :=
  response <- post "/rag/process" (Http.Json [("youtube_url", youtube_url data)]) None ;;
  Ret (axios.data response).

Definition queryVideo (data : RAGQueryRequest)
  : async (option Backend.ResponseData) :=
  response <- post "/rag/query" (Http.Json [("question", question data)]) None ;;
  Ret (axios.data response).

End api.

(** ** pages/Forecast.tsx *)

Module Forecast.

Inductive uploadType : Set := customers | campaign.

(** [file] is [e.target.files?.[0]]. *)
Definition handleFileUpload (file : option File.t) (type : uploadType) : async unit :=
  match file with
  | Some f =>
      match type with
      | customers => perform (setCustomersFile (Some f))
      | campaign => perform (setCampaignHistoryFile (Some f))
      end
  | None => Ret tt
  end.

(** [status === "success"] *)
Definition isSuccess (status : option string) : bool :=
  match status with
  | Some v => String.eqb v "success"
  | None => false
  end.

Definition handleRunForecast (s : AppState) : async unit :=
  match customersFile (forecast s), campaignHistoryFile (forecast s) with
  | Some customersFile, Some campaignHistoryFile =>
      perform (setIsLoading true) ;;
      tryFinally
        (tryCatch
           (response <- api.runForecast
                          {| api.customers_file := customersFile;
                             api.campaign_history_file := campaignHistoryFile |} ;;
            status <- member response Backend.status ;;
            results <- member response Backend.results ;;
            match isSuccess status, results with
            | true, Some results =>
                perform (setForecastResults (Some results)) ;;
                toast.success "Forecast completed successfully!"
            | _, _ => toast.error "Forecast failed. Please try again."
            end)
           (fun error =>
              console_.error "Forecast error:" ;;
              toast.error "Failed to run forecast. Please check your connection."))
        (perform (setIsLoading false))
  | _, _ => toast.error "Please upload both CSV files"
  end.

(** The [disabled] attribute of the Run Forecast button. *)
Definition runDisabled (s : AppState) : bool :=
  match customersFile (forecast s), campaignHistoryFile (forecast s) with
  | Some _, Some _ => AppContext.isLoading (appContext s)
  | _, _ => true
  end.

End Forecast.

(** ** pages/ImageGenerator.tsx *)

Module ImageGenerator.

Definition generatePromptFromForecast (s : AppState) : async unit :=
  match AppContext.forecastResults (appContext s) with
  | Some forecastResults =>
      let campaignPrompt :=
        "Create a marketing image for a "
        ++ AppContext.recommended_campaign_type forecastResults
        ++ " campaign with "
        ++ AppContext.recommended_offer forecastResults
        ++ ". Target audience: "
        ++ AppContext.target (AppContext.campaign_details forecastResults)
        ++ ". Professional, modern design with engaging visuals." in
      perform (setPrompt campaignPrompt)
  | None => toast.error "No forecast results available. Please run a forecast first."
  end.

Definition handleGenerateImage (s : AppState) : async unit :=
  let prompt := prompt (imageGenerator s) in
  if negb (JsString.truthy (JsString.trim prompt))
  then toast.error "Please enter a prompt for image generation"
  else
    perform (setIsLoading true) ;;
    tryFinally
      (tryCatch
         (response <- api.generateImage {| api.prompt := prompt |} ;;
          image_url <- member response Backend.image_url ;;
          match image_url with
          | Some (String c u) =>
              perform (setGeneratedImage (Some (String c u))) ;;
              toast.success "Image generated successfully!"
          | _ => toast.error "Failed to generate image. Please try again."
          end)
         (fun error =>
            console_.error "Image generation error:" ;;
            toast.error "Failed to generate image. Please check your connection."))
      (perform (setIsLoading false)).

End ImageGenerator.

(** ** pages/SloganGenerator.tsx *)

Module SloganGenerator.

Definition newline : string := String (ascii_of_nat 10) EmptyString.

Section Template.

(** [Number.prototype.toString], which template literals apply to the
    numeric fields. *)
Variable Number_toString : number -> string.

Definition generateContextFromForecast (s : AppState) : async unit :=
  match AppContext.forecastResults (appContext s) with
  | Some forecastResults =>
      let details := AppContext.campaign_details forecastResults in
      let campaignContext :=
        "Campaign Type: "
        ++ AppContext.recommended_campaign_type forecastResults
        ++ newline ++ "Offer: "
        ++ AppContext.recommended_offer forecastResults
        ++ newline ++ "Target Audience: "
        ++ AppContext.target details
        ++ newline ++ "Discount: "
        ++ Number_toString (AppContext.discount details)
        ++ "%" ++ newline ++ "Budget: $"
        ++ Number_toString (AppContext.budget details) in
      perform (setContext campaignContext)
  | None => toast.error "No forecast results available. Please run a forecast first."
  end.

End Template.

Definition handleGenerateSlogans (s : AppState) : async unit :=
  let context := context (sloganGenerator s) in
  if negb (JsString.truthy (JsString.trim context))
  then toast.error "Please enter context for slogan generation"
  else
    perform (setIsLoading true) ;;
    tryFinally
      (tryCatch
         (response <- api.generateSlogan {| api.context := context |} ;;
          slogans <- member response Backend.slogans ;;
          match slogans with
          | Some slogans =>
              perform (setSlogans slogans) ;;
              toast.success "Slogans generated successfully!"
          | None => toast.error "Failed to generate slogans. Please try again."
          end)
         (fun error =>
            console_.error "Slogan generation error:" ;;
            toast.error "Failed to generate slogans. Please check your connection."))
      (perform (setIsLoading false)).

End SloganGenerator.

(** ** pages/YouTubeQA.tsx *)

Module YouTubeQA.

Import RegExp.

(** [/^(https?:\/\/)?(www\.)?(youtube\.com\/watch\?v=|youtu\.be\/)[\w-]+/] *)
Definition youtubeRegex : regex :=
  Cat (Opt (Cat (Lit "http") (Cat (Opt (Lit "s")) (Lit "://"))))
    (Cat (Opt (Lit "www."))
       (Cat (Alt (Lit "youtube.com/watch?v=") (Lit "youtu.be/"))
          (ClassPlus isWordOrHyphen))).

Definition handleProcessVideo (s : AppState) : async unit :=
  let youtubeUrl := youtubeUrl (youTubeQA s) in
  if negb (JsString.truthy (JsString.trim youtubeUrl))
  then toast.error "Please enter a YouTube URL"
  else if negb (test_anchored youtubeRegex youtubeUrl)
  then toast.error "Please enter a valid YouTube URL"
  else
    perform (setIsProcessing true) ;;
    tryFinally
      (tryCatch
         (response <- api.processVideo {| api.youtube_url := youtubeUrl |} ;;
          video_info <- member response Backend.video_info ;;
          match video_info with
          | Some video_info =>
              perform (setVideoInfo (Some video_info)) ;;
              toast.success "Video processed successfully!"
          | None => toast.error "Failed to process video. Please try again."
          end)
         (fun error =>
            console_.error "Video processing error:" ;;
            toast.error "Failed to process video. Please check the URL and try again."))
      (perform (setIsProcessing false)).

Definition handleAskQuestion (s : AppState) : async unit :=
  let question := question (youTubeQA s) in
  if negb (JsString.truthy (JsString.trim question))
  then toast.error "Please enter a question"
  else
    match videoInfo (youTubeQA s) with
    | None => toast.error "Please process a video first"
    | Some _ =>
        perform (setIsQuerying true) ;;
        tryFinally
          (tryCatch
             (response <- api.queryVideo {| api.question := question |} ;;
              answer <- member response Backend.answer ;;
              match answer with
              | Some (String c a) =>
                  perform (setAnswer (String c a)) ;;
                  toast.success "Question answered successfully!"
              | _ => toast.error "Failed to get answer. Please try again."
              end)
             (fun error =>
                console_.error "Query error:" ;;
                toast.error "Failed to get answer. Please try again."))
          (perform (setIsQuerying false))
    end.

End YouTubeQA.

(** ** components/ui/file-upload.tsx *)

Module FileUpload.

(** The props the handlers read.  The [onFileSelect] callback is
    modelled by the list of files it was called with. *)
Record Props : Set := { accept : string; maxSize : number }.

Definition defaultProps : Props := {| accept := ".csv"; maxSize := 10%float |}.

Record State : Set := {
  isDragOver : bool;
  selectedFile : option File.t;
  error : option string
}.

Definition initial : State :=
  {| isDragOver := false; selectedFile := None; error := None |}.

Definition setIsDragOver (v : bool) (st : State) : State :=
  {| isDragOver := v; selectedFile := selectedFile st; error := error st |}.
Definition setSelectedFile (v : option File.t) (st : State) : State :=
  {| isDragOver := isDragOver st; selectedFile := v; error := error st |}.
Definition setError (v : option string) (st : State) : State :=
  {| isDragOver := isDragOver st; selectedFile := selectedFile st; error := v |}.

(** [file.size > maxSize * 1024 * 1024] *)
Definition tooLarge (props : Props) (file : File.t) : bool :=
  (maxSize props * 1024 * 1024 <? File.size file)%float.

Section Component.

Variable Number_toString : number -> string.
Variable props : Props.

(** The new state and the calls made to [onFileSelect]. *)
Definition handleFileSelect (file : File.t) (st : State) : State * list File.t :=
  let st := setError None st in
  if tooLarge props file
  then
    (setError
       (Some ("File size must be less than " ++ Number_toString (maxSize props) ++ "MB"))
       st,
     [])
  else (setSelectedFile (Some file) st, [file]).

(** [files] is [Array.from(e.dataTransfer.files)]. *)
Definition handleDrop (files : list File.t) (st : State) : State * list File.t :=
  let st := setIsDragOver false st in
  match files with
  | file :: _ => handleFileSelect file st
  | [] => (st, [])
  end.

Definition handleDragOver (st : State) : State := setIsDragOver true st.

Definition handleDragLeave (st : State) : State := setIsDragOver false st.

(** [file] is [e.target.files?.[0]]. *)
Definition handleInputChange (file : option File.t) (st : State) : State * list File.t :=
  match file with
  | Some file => handleFileSelect file st
  | None => (st, [])
  end.

Definition clearFile (st : State) : State :=
  setError None (setSelectedFile None st).

End Component.

End FileUpload.

(** ** The event loop

    Handlers run to their first [await]; the exchange they started is
    kept with what is left of the handler, and resumed when the
    transport settles it.  Exchanges settle in any order. *)

Record suspended : Type := {
  ticket : nat;
  request : Http.request;
  resume : Http.result -> async unit
}.

Record runtime : Type := {
  app : AppState;
  sent : list Http.request;
  waiting : list suspended
}.

Definition boot (s : AppState) : runtime :=
  {| app := s; sent := []; waiting := [] |}.

(** Runs [t] up to its end or its next [await].  A rejection nobody
    caught ends the task. *)
Fixpoint exec (t : async unit) (rt : runtime) : runtime :=
  match t with
  | Ret _ => rt
  | Throw _ => rt
  | Update f k =>
      exec k {| app := f (app rt); sent := sent rt; waiting := waiting rt |}
  | Exchange req k =>
      {| app := app rt;
         sent := (sent rt ++ [req])%list;
         waiting :=
           (waiting rt
            ++ [{| ticket := List.length (sent rt); request := req; resume := k |}])%list |}
  end.

(** A handler is called with the state of the last render. *)
Definition call (handler : AppState -> async unit) (rt : runtime) : runtime :=
  exec (handler (app rt)) rt.

Fixpoint take (id : nat) (l : list suspended) : option (suspended * list suspended) :=
  match l with
  | [] => None
  | p :: l' =>
      if Nat.eqb (ticket p) id then Some (p, l')
      else
        match take id l' with
        | Some (q, rest) => Some (q, p :: rest)
        | None => None
        end
  end.

(** The exchange with ticket [id] settles with [r]. *)
Definition settle (id : nat) (r : Http.result) (rt : runtime) : runtime :=
  match take id (waiting rt) with
  | Some (p, rest) =>
      exec (resume p r) {| app := app rt; sent := sent rt; waiting := rest |}
  | None => rt
  end.

Inductive event : Type :=
| ChooseFile (file : option File.t) (type : Forecast.uploadType)
| RunForecast
| EditPrompt (v : string)
| UseForecastForPrompt
| GenerateImage
| EditContext (v : string)
| UseForecastForContext
| GenerateSlogans
| EditYoutubeUrl (v : string)
| ProcessVideo
| EditQuestion (v : string)
| AskQuestion
| Settle (id : nat) (r : Http.result).

Section Loop.

Variable Number_toString : number -> string.

Definition step (e : event) (rt : runtime) : runtime :=
  match e with
  | ChooseFile file type => call (fun _ => Forecast.handleFileUpload file type) rt
  | RunForecast => call Forecast.handleRunForecast rt
  | EditPrompt v => call (fun _ => perform (setPrompt v)) rt
  | UseForecastForPrompt => call ImageGenerator.generatePromptFromForecast rt
  | GenerateImage => call ImageGenerator.handleGenerateImage rt
  | EditContext v => call (fun _ => perform (setContext v)) rt
  | UseForecastForContext =>
      call (SloganGenerator.generateContextFromForecast Number_toString) rt
  | GenerateSlogans => call SloganGenerator.handleGenerateSlogans rt
  | EditYoutubeUrl v => call (fun _ => perform (setYoutubeUrl v)) rt
  | ProcessVideo => call YouTubeQA.handleProcessVideo rt
  | EditQuestion v => call (fun _ => perform (setQuestion v)) rt
  | AskQuestion => call YouTubeQA.handleAskQuestion rt
  | Settle id r => settle id r rt
  end.

Fixpoint run (es : list event) (rt : runtime) : runtime :=
  match es with
  | [] => rt
  | e :: es' => run es' (step e rt)
  end.

End Loop.

(** ** Observations used by the statements *)

(** How an awaited promise completes. *)
Inductive completion (A : Type) : Type :=
| Returned (a : A)
| Rejected (e : exn).

Arguments Returned {A} a.
Arguments Rejected {A} e.

(** What a caller that awaits [m] to its end observes when the
    transport answers each request with [transport]: the final state,
    the requests made in order, and the completion. *)
Fixpoint await {A : Type} (transport : Http.request -> Http.result) (m : async A)
  (s : AppState) : AppState * list Http.request * completion A :=
  match m with
  | Ret a => (s, [], Returned a)
  | Throw e => (s, [], Rejected e)
  | Update f k => await transport k (f s)
  | Exchange req k =>
      let '(s', reqs, c) := await transport (k (transport req)) s in
      (s', req :: reqs, c)
  end.

(** The completion of an [api] call, read off the HTTP result. *)
Definition bodyOrRejection (r : Http.result) : completion (option Backend.ResponseData) :=
  match r with
  | Http.Responded resp =>
      if axios.validateStatus (Http.status resp)
      then Returned (Http.data resp)
      else Rejected (AxiosError (Some resp))
  | Http.NetworkError => Rejected (AxiosError None)
  end.

Definition jsonRequest (url key value : string) : Http.request :=
  {| Http.path := url; Http.payload := Http.Json [(key, value)];
     Http.contentType := "application/json" |}.

Definition forecastRequest (customers history : File.t) : Http.request :=
  {| Http.path := "/forecast";
     Http.payload :=
       Http.FormData [("customers_file", customers);
                      ("campaign_history_file", history)];
     Http.contentType := "multipart/form-data" |}.

(** The body of a response that got past the status check. *)
Definition acceptedBody (r : Http.result) : option Backend.ResponseData :=
  match r with
  | Http.Responded resp =>
      if axios.validateStatus (Http.status resp) then Http.data resp else None
  | Http.NetworkError => None
  end.

(** The forecast a settled exchange carries when it reports success:
    a 2xx response whose body has [status === "success"] and [results]. *)
Definition forecastPayload (r : Http.result) : option AppContext.ForecastResults :=
  match acceptedBody r with
  | Some body =>
      if Forecast.isSuccess (Backend.status body) then Backend.results body else None
  | None => None
  end.

(** The video a settled exchange carries: a 2xx response with [video_info]. *)
Definition ingestedVideo (r : Http.result) : option VideoInfo :=
  match acceptedBody r with
  | Some body => Backend.video_info body
  | None => None
  end.

(** The URL of the exchange in flight under ticket [id], if any. *)
Definition inFlight (id : nat) (rt : runtime) : option string :=
  match take id (waiting rt) with
  | Some (p, _) => Some (Http.path (request p))
  | None => None
  end.

(** The forecast that event [e] delivers in [rt]: the payload of a
    successful response to a forecast exchange in flight. *)
Definition delivered (e : event) (rt : runtime) : option AppContext.ForecastResults :=
  match e with
  | Settle id r =>
      match inFlight id rt with
      | Some url => if String.eqb url "/forecast" then forecastPayload r else None
      | None => None
      end
  | _ => None
  end.

Section Delivery.

Variable Number_toString : number -> string.

(** The forecast delivered last along [es], or [current] when none is. *)
Fixpoint lastDelivered (es : list event) (rt : runtime)
  (current : option AppContext.ForecastResults) : option AppContext.ForecastResults :=
  match es with
  | [] => current
  | e :: es' =>
      lastDelivered es' (step Number_toString e rt)
        (match delivered e rt with
         | Some v => Some v
         | None => current
         end)
  end.

End Delivery.

(** The shape [youtubeRegex] looks for at the front of its input. *)
Definition videoLinkPrefix (s : string) : Prop :=
  exists scheme www host id rest,
    s = scheme ++ www ++ host ++ id ++ rest
    /\ (scheme = "" \/ scheme = "http://" \/ scheme = "https://")
    /\ (www = "" \/ www = "www.")
    /\ (host = "youtube.com/watch?v=" \/ host = "youtu.be/")
    /\ id <> ""
    /\ (forall c, In c (list_ascii_of_string id) -> RegExp.isWordOrHyphen c = true).


(** ** Sample data *)

Definition sampleForecast (campaignType : string) : AppContext.ForecastResults :=
  {| AppContext.segment_count := 8%float;
     AppContext.recommended_campaign_type := campaignType;
     AppContext.recommended_offer := "Free shipping";
     AppContext.success_probability := 76.5%float;
     AppContext.privacy_compliance := true;
     AppContext.campaign_details :=
       {| AppContext.type := campaignType; AppContext.offer := "Free shipping";
          AppContext.target := "Young professionals";
          AppContext.discount := 15%float; AppContext.budget := 5000%float;
          AppContext.target_size := 1200%float |};
     AppContext.report_links := {| AppContext.html := ""; AppContext.pdf := "" |} |}.

Definition customersCsv : File.t :=
  {| File.name := "customers.csv"; File.size := 2048%float; File.type := "text/csv" |}.

Definition campaignHistoryCsv : File.t :=
  {| File.name := "campaign_history.csv"; File.size := 3072%float;
     File.type := "text/csv" |}.

(** Twenty megabytes, twice the default limit of [FileUpload]. *)
Definition hugeCsv : File.t :=
  {| File.name := "customers.csv"; File.size := 20971520%float;
     File.type := "text/csv" |}.


Definition jsonResponse (code : nat) (body : Backend.ResponseData) : Http.result :=
  Http.Responded {| Http.status := code; Http.data := Some body |}.

Definition forecastOk (fr : AppContext.ForecastResults) : Http.result :=
  jsonResponse 200
    {| Backend.status := Some "success"; Backend.results := Some fr;
       Backend.image_url := None; Backend.slogans := None;
       Backend.video_info := None; Backend.answer := None |}.

Definition sampleVideo : VideoInfo :=
  {| video_id := "abc123"; url := "https://www.youtube.com/watch?v=abc123";
     chunk_count := 42%float; title := None |}.

Definition videoOk (v : VideoInfo) : Http.result :=
  jsonResponse 200
    {| Backend.status := None; Backend.results := None;
       Backend.image_url := None; Backend.slogans := None;
       Backend.video_info := Some v; Backend.answer := None |}.

(** A stand-in for [Number.prototype.toString] on the sample data. *)
Definition sampleToString (n : number) : string :=
  if (n =? 15)%float then "15" else if (n =? 10)%float then "10" else "5000".

Definition filesChosen : list event :=
  [ChooseFile (Some customersCsv) Forecast.customers;
   ChooseFile (Some campaignHistoryCsv) Forecast.campaign].

(** ** Busy flags *)

(** The submissions each handler lets through its own checks. *)
Definition forecastReady (s : AppState) : bool :=
  match customersFile (forecast s), campaignHistoryFile (forecast s) with
  | Some _, Some _ => true
  | _, _ => false
  end.

Definition promptGiven (s : AppState) : bool :=
  JsString.truthy (JsString.trim (prompt (imageGenerator s))).

Definition contextGiven (s : AppState) : bool :=
  JsString.truthy (JsString.trim (context (sloganGenerator s))).

Definition linkGiven (s : AppState) : bool :=
  JsString.truthy (JsString.trim (youtubeUrl (youTubeQA s)))
  && RegExp.test_anchored YouTubeQA.youtubeRegex (youtubeUrl (youTubeQA s)).

Definition questionReady (s : AppState) : bool :=
  JsString.truthy (JsString.trim (question (youTubeQA s)))
  && match videoInfo (youTubeQA s) with Some _ => true | None => false end.

(** On a submission that is [accepted], [handler] raises the global
    flag and starts one exchange whose continuation lowers the flag
    however the exchange settles; any other submission is turned down on
    the spot, without a request and without touching the context. *)
Definition raisesGlobalFlag (handler : AppState -> async unit)
  (accepted : AppState -> bool) : Prop :=
  forall rt,
    let rt' := call handler rt in
    if accepted (app rt)
    then
      AppContext.isLoading (appContext (app rt')) = true
      /\ exists req k,
           sent rt' = (sent rt ++ [req])%list
           /\ waiting rt'
              = (waiting rt
                 ++ [{| ticket := List.length (sent rt); request := req;
                        resume := k |}])%list
           /\ forall r rt0,
                AppContext.isLoading (appContext (app (exec (k r) rt0))) = false
    else
      sent rt' = sent rt /\ waiting rt' = waiting rt
      /\ appContext (app rt') = appContext (app rt).

(** [handler] never touches the context.  On a submission that is
    [accepted] it raises the page's own [flag] and starts one exchange
    whose continuation lowers that flag, and leaves the context alone,
    however the exchange settles; any other submission is turned down
    on the spot, without a request. *)
Definition raisesLocalFlag (handler : AppState -> async unit)
  (accepted : AppState -> bool) (flag : YouTubeQAState -> bool) : Prop :=
  forall rt,
    let rt' := call handler rt in
    appContext (app rt') = appContext (app rt)
    /\ if accepted (app rt)
       then
         flag (youTubeQA (app rt')) = true
         /\ exists req k,
              sent rt' = (sent rt ++ [req])%list
              /\ waiting rt'
                 = (waiting rt
                    ++ [{| ticket := List.length (sent rt); request := req;
                           resume := k |}])%list
              /\ forall r rt0,
                   appContext (app (exec (k r) rt0)) = appContext (app rt0)
                   /\ flag (youTubeQA (app (exec (k r) rt0))) = false
       else sent rt' = sent rt /\ waiting rt' = waiting rt.

(** ** Suspended handlers *)

(** The notification that closes a request: a success when the response
    carried a [payload], an error otherwise. *)
Definition closingToast {A : Type} (payload : option A) (message : string) : toast :=
  match payload with
  | Some _ => ToastSuccess message
  | None => ToastError message
  end.

(** The part of what a suspended handler does on resumption that the
    statements below rely on: it starts nothing new, replaces the stored
    forecast only by the payload of a successful forecast response,
    replaces the held video only by the one a successful ingestion
    carries, and leaves the question alone; a forecast or an ingestion
    closes with a success notification when it stored its payload and
    with an error notification otherwise. *)
Definition wellBehaved (p : suspended) : Prop :=
  forall r rt,
    let rt' := exec (resume p r) rt in
    let url := Http.path (request p) in
    sent rt' = sent rt
    /\ waiting rt' = waiting rt
    /\ AppContext.forecastResults (appContext (app rt'))
       = match (if String.eqb url "/forecast" then forecastPayload r else None) with
         | Some v => Some v
         | None => AppContext.forecastResults (appContext (app rt))
         end
    /\ videoInfo (youTubeQA (app rt'))
       = match (if String.eqb url "/rag/process" then ingestedVideo r else None) with
         | Some v => Some v
         | None => videoInfo (youTubeQA (app rt))
         end
    /\ question (youTubeQA (app rt')) = question (youTubeQA (app rt))
    /\ (url = "/forecast" ->
        exists message,
          toasts (app rt')
          = (toasts (app rt) ++ [closingToast (forecastPayload r) message])%list)
    /\ (url = "/rag/process" ->
        exists message,
          toasts (app rt')
          = (toasts (app rt) ++ [closingToast (ingestedVideo r) message])%list).

(** ** What each handler does once its request has settled

    The part of each handler after its [await], as a function of the
    settled exchange. *)

(** The image a settled exchange carries: a 2xx response whose
    [image_url] is a string that is not empty. *)
Definition imagePayload (r : Http.result) : option string :=
  match acceptedBody r with
  | Some body =>
      match Backend.image_url body with
      | Some (String c u) => Some (String c u)
      | _ => None
      end
  | None => None
  end.

(** The slogans a settled exchange carries: a 2xx response with a
    [slogans] array, empty or not. *)
Definition slogansPayload (r : Http.result) : option (list string) :=
  match acceptedBody r with
  | Some body => Backend.slogans body
  | None => None
  end.

(** The answer a settled exchange carries: a 2xx response whose
    [answer] is a string that is not empty. *)
Definition answerPayload (r : Http.result) : option string :=
  match acceptedBody r with
  | Some body =>
      match Backend.answer body with
      | Some (String c a) => Some (String c a)
      | _ => None
      end
  | None => None
  end.

(** The [catch] clause: the console line and the notification. *)
Definition caught (label message : string) (s : AppState) : AppState :=
  showToast (ToastError message) (logError label s).

Definition forecastSettled (r : Http.result) (s : AppState) : AppState :=
  setIsLoading false
    (match acceptedBody r with
     | Some _ =>
         match forecastPayload r with
         | Some results =>
             showToast (ToastSuccess "Forecast completed successfully!")
               (setForecastResults (Some results) s)
         | None => showToast (ToastError "Forecast failed. Please try again.") s
         end
     | None =>
         caught "Forecast error:"
           "Failed to run forecast. Please check your connection." s
     end).

Definition imageSettled (r : Http.result) (s : AppState) : AppState :=
  setIsLoading false
    (match acceptedBody r with
     | Some _ =>
         match imagePayload r with
         | Some image_url =>
             showToast (ToastSuccess "Image generated successfully!")
               (setGeneratedImage (Some image_url) s)
         | None => showToast (ToastError "Failed to generate image. Please try again.") s
         end
     | None =>
         caught "Image generation error:"
           "Failed to generate image. Please check your connection." s
     end).

Definition slogansSettled (r : Http.result) (s : AppState) : AppState :=
  setIsLoading false
    (match acceptedBody r with
     | Some _ =>
         match slogansPayload r with
         | Some slogans =>
             showToast (ToastSuccess "Slogans generated successfully!")
               (setSlogans slogans s)
         | None => showToast (ToastError "Failed to generate slogans. Please try again.") s
         end
     | None =>
         caught "Slogan generation error:"
           "Failed to generate slogans. Please check your connection." s
     end).

Definition videoSettled (r : Http.result) (s : AppState) : AppState :=
  setIsProcessing false
    (match acceptedBody r with
     | Some _ =>
         match ingestedVideo r with
         | Some video_info =>
             showToast (ToastSuccess "Video processed successfully!")
               (setVideoInfo (Some video_info) s)
         | None => showToast (ToastError "Failed to process video. Please try again.") s
         end
     | None =>
         caught "Video processing error:"
           "Failed to process video. Please check the URL and try again." s
     end).

Definition answerSettled (r : Http.result) (s : AppState) : AppState :=
  setIsQuerying false
    (match acceptedBody r with
     | Some _ =>
         match answerPayload r with
         | Some answer =>
             showToast (ToastSuccess "Question answered successfully!")
               (setAnswer answer s)
         | None => showToast (ToastError "Failed to get answer. Please try again.") s
         end
     | None => caught "Query error:" "Failed to get answer. Please try again." s
     end).

(** The handler that waits on an exchange is known by the URL it
    posted to. *)
Definition afterAwait (url : string) (r : Http.result) (s : AppState) : AppState :=
  if String.eqb url "/forecast" then forecastSettled r s
  else if String.eqb url "/img" then imageSettled r s
  else if String.eqb url "/slogan" then slogansSettled r s
  else if String.eqb url "/rag/process" then videoSettled r s
  else if String.eqb url "/rag/query" then answerSettled r s
  else s.

(** The five URLs of the backend. *)
Definition isEndpoint (url : string) : bool :=
  String.eqb url "/forecast" || String.eqb url "/img" || String.eqb url "/slogan"
  || String.eqb url "/rag/process" || String.eqb url "/rag/query".

(** A suspended handler resumes as its source reads: it waits on one of
    the five URLs, applies [afterAwait] to the state it finds and starts
    nothing. *)
Definition resumesAsWritten (p : suspended) : Prop :=
  isEndpoint (Http.path (request p)) = true
  /\ forall r rt,
       exec (resume p r) rt
       = {| app := afterAwait (Http.path (request p)) r (app rt);
            sent := sent rt; waiting := waiting rt |}.

(** The URLs posted to by the handlers that use the global loading
    flag. *)
Definition usesGlobalFlag (url : string) : bool :=
  String.eqb url "/forecast" || String.eqb url "/img" || String.eqb url "/slogan".

Definition holdsGlobalFlag (p : suspended) : bool :=
  usesGlobalFlag (Http.path (request p)).

Definition globalInFlight (rt : runtime) : nat :=
  List.length (filter holdsGlobalFlag (waiting rt)).

(** What the buttons keep true: the suspended handlers are the ones of
    the source, and the global flag is up exactly while one forecast,
    image or slogan request is in flight. *)
Definition flagExact (rt : runtime) : Prop :=
  Forall resumesAsWritten (waiting rt)
  /\ globalInFlight rt
     = if AppContext.isLoading (appContext (app rt)) then 1 else 0.

(** ** Text inputs *)

Fixpoint allWhiteSpace (s : string) : bool :=
  match s with
  | EmptyString => true
  | String c s' => JsString.isWhiteSpace c && allWhiteSpace s'
  end.

(** ** File choices *)

Definition sameType (a b : Forecast.uploadType) : bool :=
  match a, b with
  | Forecast.customers, Forecast.customers => true
  | Forecast.campaign, Forecast.campaign => true
  | _, _ => false
  end.

(** The file a picker of [type] holds after the changes [picks], oldest
    first: the last file chosen with it; a change with no file does not
    count. *)
Fixpoint lastChosen (type : Forecast.uploadType)
  (picks : list (option File.t * Forecast.uploadType)) (current : option File.t)
  : option File.t :=
  match picks with
  | [] => current
  | (Some f, t) :: picks' =>
      lastChosen type picks' (if sameType t type then Some f else current)
  | (None, _) :: picks' => lastChosen type picks' current
  end.

Definition choose (pick : option File.t * Forecast.uploadType) : event :=
  ChooseFile (fst pick) (snd pick).

(** ** The buttons

    What the rendered pages let the user do: an element that is not
    rendered or is [disabled] cannot fire its handler. *)
Definition unavailable (e : event) (s : AppState) : bool :=
  let isLoading := AppContext.isLoading (appContext s) in
  let noForecast :=
    match AppContext.forecastResults (appContext s) with
    | Some _ => false
    | None => true
    end in
  let noVideo :=
    match videoInfo (youTubeQA s) with Some _ => false | None => true end in
  match e with
  | RunForecast => Forecast.runDisabled s
  | GenerateImage =>
      negb (JsString.truthy (JsString.trim (prompt (imageGenerator s)))) || isLoading
  | UseForecastForPrompt => noForecast || isLoading
  | GenerateSlogans =>
      negb (JsString.truthy (JsString.trim (context (sloganGenerator s)))) || isLoading
  | UseForecastForContext => noForecast || isLoading
  | ProcessVideo =>
      negb (JsString.truthy (JsString.trim (youtubeUrl (youTubeQA s))))
      || isProcessing (youTubeQA s)
  | EditQuestion _ => noVideo
  | AskQuestion =>
      noVideo
      || negb (JsString.truthy (JsString.trim (question (youTubeQA s))))
      || isQuerying (youTubeQA s)
  | _ => false
  end.

Section Interface.

Variable Number_toString : number -> string.

(** An event as it reaches the handlers through the rendered page. *)
Definition uiStep (e : event) (rt : runtime) : runtime :=
  if unavailable e (app rt) then rt else step Number_toString e rt.

Fixpoint uiRun (es : list event) (rt : runtime) : runtime :=
  match es with
  | [] => rt
  | e :: es' => uiRun es' (uiStep e rt)
  end.

End Interface.

(** The messages with which the handlers turn down a submission that
    lacks its input. *)
Definition missingInputMessages : list string :=
  ["Please upload both CSV files";
   "Please enter a prompt for image generation";
   "Please enter context for slogan generation";
   "Please enter a YouTube URL";
   "Please enter a question";
   "Please process a video first";
   "No forecast results available. Please run a forecast first."].

Definition reportsMissingInput (t : toast) : bool :=
  match t with
  | ToastError message => existsb (String.eqb message) missingInputMessages
  | ToastSuccess _ => false
  end.

(** ** pages/YouTubeQA.tsx, continued *)

Definition getVideoThumbnail (videoId : string) : string :=
  "https://img.youtube.com/vi/" ++ videoId ++ "/maxresdefault.jpg".

(** ** components/ui/file-upload.tsx, continued: the component in use *)

Inductive uploadEvent : Set :=
| InputChange (file : option File.t)
| Drop (files : list File.t)
| DragOver
| DragLeave
| ClearFile.

Section Uploads.

Variable Number_toString : number -> string.
Variable props : FileUpload.Props.

(** The component state and the calls made to [onFileSelect] so far,
    oldest first. *)
Definition uploadStep (e : uploadEvent) (c : FileUpload.State * list File.t)
  : FileUpload.State * list File.t :=
  let '(st, calls) := c in
  match e with
  | InputChange file =>
      let '(st', new) := FileUpload.handleInputChange Number_toString props file st in
      (st', (calls ++ new)%list)
  | Drop files =>
      let '(st', new) := FileUpload.handleDrop Number_toString props files st in
      (st', (calls ++ new)%list)
  | DragOver => (FileUpload.handleDragOver st, calls)
  | DragLeave => (FileUpload.handleDragLeave st, calls)
  | ClearFile => (FileUpload.clearFile st, calls)
  end.

Fixpoint uploadRun (es : list uploadEvent) (c : FileUpload.State * list File.t)
  : FileUpload.State * list File.t :=
  match es with
  | [] => c
  | e :: es' => uploadRun es' (uploadStep e c)
  end.

End Uploads.

(** ** Handlers run to their end *)

(** Whatever the transport answers, [handler] runs to its end without
    letting an error out, and makes at most one request. *)
Definition catchesEverything (handler : AppState -> async unit) : Prop :=
  forall (transport : Http.request -> Http.result) (s s0 : AppState),
  exists s' reqs,
    await transport (handler s) s0 = (s', reqs, Returned tt)
    /\ List.length reqs <= 1.

(** ** The upload component along its events *)

(** Every file handed to [onFileSelect] is within the size limit, and
    a file shown as selected is the one handed over last. *)
Definition uploadsConsistent (props : FileUpload.Props)
  (c : FileUpload.State * list File.t) : Prop :=
  Forall (fun f => FileUpload.tooLarge props f = false) (snd c)
  /\ forall f,
       FileUpload.selectedFile (fst c) = Some f ->
       exists earlier, snd c = (earlier ++ [f])%list.

(** ** More sample data *)

Definition imageOk (address : string) : Http.result :=
  jsonResponse 200
    {| Backend.status := None; Backend.results := None;
       Backend.image_url := Some address; Backend.slogans := None;
       Backend.video_info := None; Backend.answer := None |}.

Definition slogansOk (list : list string) : Http.result :=
  jsonResponse 200
    {| Backend.status := None; Backend.results := None;
       Backend.image_url := None; Backend.slogans := Some list;
       Backend.video_info := None; Backend.answer := None |}.

Definition answerOk (text : string) : Http.result :=
  jsonResponse 200
    {| Backend.status := None; Backend.results := None;
       Backend.image_url := None; Backend.slogans := None;
       Backend.video_info := None; Backend.answer := Some text |}.

Definition videoHeld : list event :=
  [EditYoutubeUrl "https://www.youtube.com/watch?v=abc123"; ProcessVideo;
   Settle 0 (videoOk sampleVideo)].

(** ** Forecast responses in the order of their requests *)

(** The forecast that event [e] delivers in [rt], with the ticket of
    the request it answers. *)
Definition deliveredEntry (e : event) (rt : runtime)
  : list (nat * AppContext.ForecastResults) :=
  match e with
  | Settle id _ =>
      match delivered e rt with
      | Some v => [(id, v)]
      | None => []
      end
  | _ => []
  end.

Section ForecastOrder.

Variable Number_toString : number -> string.

(** The forecasts delivered along [es], taken through the rendered
    pages, oldest first. *)
Fixpoint forecastsDelivered (es : list event) (rt : runtime)
  : list (nat * AppContext.ForecastResults) :=
  match es with
  | [] => []
  | e :: es' =>
      (deliveredEntry e rt ++ forecastsDelivered es' (uiStep Number_toString e rt))%list
  end.

End ForecastOrder.



(** * Properties *)

(** ** Strings *)

Lemma append_assoc (a b c : string) : (a ++ b) ++ c = a ++ (b ++ c).
Proof.
  induction a as [|x a IH]; simpl; [reflexivity | now rewrite IH].
Qed.

Lemma occursIn_here (needle after : string) :
  JsString.occursIn needle (needle ++ after).
Proof. exists "", after. reflexivity. Qed.

Lemma occursIn_later (needle before hay : string) :
  JsString.occursIn needle hay -> JsString.occursIn needle (before ++ hay).
Proof.
  intros (b & a & ->). exists (before ++ b), a.
  now rewrite append_assoc.
Qed.

Create HintDb occurs.
#[local] Hint Resolve occursIn_here occursIn_later : occurs.

(** ** Forecast data carried into the prompt and the context (C8) *)

Section ForecastTemplates.

Variable Number_toString : number -> string.

(** C8. Whenever the store holds a forecast result, the prompt written
    by the image page's "use forecast data" action and the context
    written by the slogan page's each contain the recommended campaign
    type, the recommended offer and the campaign target of that result,
    unchanged, as contiguous substrings. *)
Theorem forecast_values_embedded (rt : runtime) (fr : AppContext.ForecastResults) :
  AppContext.forecastResults (appContext (app rt)) = Some fr ->
  let p := prompt (imageGenerator
             (app (call ImageGenerator.generatePromptFromForecast rt))) in
  let c := context (sloganGenerator
             (app (call (SloganGenerator.generateContextFromForecast Number_toString) rt))) in
  (JsString.occursIn (AppContext.recommended_campaign_type fr) p
   /\ JsString.occursIn (AppContext.recommended_offer fr) p
   /\ JsString.occursIn (AppContext.target (AppContext.campaign_details fr)) p)
  /\ (JsString.occursIn (AppContext.recommended_campaign_type fr) c
      /\ JsString.occursIn (AppContext.recommended_offer fr) c
      /\ JsString.occursIn (AppContext.target (AppContext.campaign_details fr)) c).
Proof.
  intros Hstored p c. subst p c.
  unfold call, ImageGenerator.generatePromptFromForecast,
    SloganGenerator.generateContextFromForecast.
  rewrite Hstored. cbn [exec perform app setPrompt setContext updImageGenerator
    updSloganGenerator imageGenerator sloganGenerator prompt context].
  repeat split; auto 12 with occurs.
Qed.

End ForecastTemplates.

Lemma forecast_values_embedded_witness :
  JsString.occursIn "Young professionals"
    (context (sloganGenerator
       (app (call (SloganGenerator.generateContextFromForecast sampleToString)
          (boot (setForecastResults (Some (sampleForecast "Email")) initialState)))))).
Proof.
  exact (proj2 (proj2 (proj2 (forecast_values_embedded sampleToString
    (boot (setForecastResults (Some (sampleForecast "Email")) initialState))
    (sampleForecast "Email") eq_refl)))).
Defined.

(** ** The request layer (C2) *)

(** C2, as the code has it. Each of the five operations makes exactly
    one request and completes with the response body as it came, without
    looking into it, when the status is 2xx; on any other status and on
    a network failure the rejection of the transport reaches the caller
    as a thrown [AxiosError]. *)
Theorem api_returns_body_or_rejects (transport : Http.request -> Http.result)
  (s : AppState) :
  (forall d,
     let req := forecastRequest (api.customers_file d) (api.campaign_history_file d) in
     await transport (api.runForecast d) s = (s, [req], bodyOrRejection (transport req)))
  /\ (forall d,
        let req := jsonRequest "/img" "prompt" (api.prompt d) in
        await transport (api.generateImage d) s = (s, [req], bodyOrRejection (transport req)))
  /\ (forall d,
        let req := jsonRequest "/slogan" "context" (api.context d) in
        await transport (api.generateSlogan d) s = (s, [req], bodyOrRejection (transport req)))
  /\ (forall d,
        let req := jsonRequest "/rag/process" "youtube_url" (api.youtube_url d) in
        await transport (api.processVideo d) s = (s, [req], bodyOrRejection (transport req)))
  /\ (forall d,
        let req := jsonRequest "/rag/query" "question" (api.question d) in
        await transport (api.queryVideo d) s = (s, [req], bodyOrRejection (transport req))).
Proof.
  repeat split; intros d req; subst req;
    unfold api.runForecast, api.generateImage, api.generateSlogan,
      api.processVideo, api.queryVideo, api.post, axios.post,
      forecastRequest, jsonRequest;
    cbn [bind await];
    match goal with
    | |- context [transport ?q] => destruct (transport q) as [resp|]
    end;
    cbn [axios.settle bodyOrRejection];
    try destruct (axios.validateStatus (Http.status resp));
    reflexivity.
Qed.

(** C2 fails as worded: a backend that answers 422 with a JSON body
    makes [generateImage] throw, and a 500 makes [runForecast] throw;
    neither call returns a failure value. *)
Lemma api_throws_on_declared_failure :
  let declared := jsonResponse 422 Backend.empty in
  let crashed := jsonResponse 500 Backend.empty in
  snd (await (fun _ => declared) (api.generateImage {| api.prompt := "a poster" |})
         initialState)
  = Rejected (AxiosError (Some {| Http.status := 422; Http.data := Some Backend.empty |}))
  /\ snd (await (fun _ => crashed)
            (api.runForecast {| api.customers_file := customersCsv;
                                api.campaign_history_file := campaignHistoryCsv |})
            initialState)
     = Rejected (AxiosError (Some {| Http.status := 500; Http.data := Some Backend.empty |})).
Proof. split; reflexivity. Qed.

(** ** The FileUpload component (C3, C9) *)

Section FileUploadFacts.

Variable Number_toString : number -> string.
Variable props : FileUpload.Props.

Lemma handleFileSelect_tooLarge (file : File.t) (st : FileUpload.State) :
  FileUpload.tooLarge props file = true ->
  FileUpload.handleFileSelect Number_toString props file st
  = ({| FileUpload.isDragOver := FileUpload.isDragOver st;
        FileUpload.selectedFile := FileUpload.selectedFile st;
        FileUpload.error :=
          Some ("File size must be less than "
                ++ Number_toString (FileUpload.maxSize props) ++ "MB") |},
     []).
Proof.
  intros H. unfold FileUpload.handleFileSelect. rewrite H. reflexivity.
Qed.

Lemma handleFileSelect_fits (file : File.t) (st : FileUpload.State) :
  FileUpload.tooLarge props file = false ->
  FileUpload.handleFileSelect Number_toString props file st
  = ({| FileUpload.isDragOver := FileUpload.isDragOver st;
        FileUpload.selectedFile := Some file;
        FileUpload.error := None |},
     [file]).
Proof.
  intros H. unfold FileUpload.handleFileSelect. rewrite H. reflexivity.
Qed.

(** C3, as the code has it. A file larger than [maxSize] megabytes that
    reaches the FileUpload component, through the picker or through a
    drop, is turned down: the component shows its size message, keeps
    its previous selection and does not call [onFileSelect], so the
    file gets no further. *)
Theorem oversized_file_not_passed_on (file : File.t) (others : list File.t)
  (st : FileUpload.State) :
  FileUpload.tooLarge props file = true ->
  let message :=
    "File size must be less than "
    ++ Number_toString (FileUpload.maxSize props) ++ "MB" in
  let viaPicker := FileUpload.handleInputChange Number_toString props (Some file) st in
  let viaDrop := FileUpload.handleDrop Number_toString props (file :: others) st in
  (snd viaPicker = []
   /\ FileUpload.error (fst viaPicker) = Some message
   /\ FileUpload.selectedFile (fst viaPicker) = FileUpload.selectedFile st)
  /\ (snd viaDrop = []
      /\ FileUpload.error (fst viaDrop) = Some message
      /\ FileUpload.selectedFile (fst viaDrop) = FileUpload.selectedFile st).
Proof.
  intros H message viaPicker viaDrop. subst viaPicker viaDrop message.
  unfold FileUpload.handleInputChange, FileUpload.handleDrop.
  rewrite !handleFileSelect_tooLarge by assumption.
  repeat split.
Qed.


End FileUploadFacts.

Lemma oversized_file_not_passed_on_witness :
  snd (FileUpload.handleDrop sampleToString FileUpload.defaultProps [hugeCsv]
         FileUpload.initial) = [].
Proof.
  exact (proj1 (proj2 (oversized_file_not_passed_on sampleToString
    FileUpload.defaultProps hugeCsv [] FileUpload.initial eq_refl))).
Defined.



(** C3 fails as worded: the Forecast page takes its files from its own
    pickers, which do not look at the size; a file of twenty megabytes,
    over the ten of [FileUpload], is sent with the forecast request. *)
Lemma forecast_sends_oversized_file :
  FileUpload.tooLarge FileUpload.defaultProps hugeCsv = true
  /\ sent (run sampleToString
             [ChooseFile (Some hugeCsv) Forecast.customers;
              ChooseFile (Some campaignHistoryCsv) Forecast.campaign;
              RunForecast]
             (boot initialState))
     = [forecastRequest hugeCsv campaignHistoryCsv].
Proof. split; reflexivity. Qed.

(** ** Busy flags (C4) *)

Ltac settle_cases :=
  unfold Forecast.isSuccess;
  repeat first
    [ progress cbn
    | match goal with
      | r : Http.result |- _ =>
          destruct r as [[code [[st res img slo vid ans]|]]|]
      | |- context [axios.validateStatus ?c] => destruct (axios.validateStatus c)
      | |- context [String.eqb ?v ?w] => is_var v; destruct (String.eqb v w)
      | |- context [match ?x with Some _ => _ | None => _ end] =>
          is_var x; destruct x
      | |- context [match ?x with EmptyString => _ | String _ _ => _ end] =>
          is_var x; destruct x
      end ].

Ltac flag_raised :=
  split; [reflexivity|];
  eexists _, _; split; [reflexivity|]; split; [reflexivity|];
  intros r rt0; settle_cases; try split; reflexivity.

Lemma handleRunForecast_raises :
  raisesGlobalFlag Forecast.handleRunForecast forecastReady.
Proof.
  intros rt rt'. subst rt'.
  unfold call, Forecast.handleRunForecast, forecastReady.
  destruct (customersFile (forecast (app rt))) as [c|];
    destruct (campaignHistoryFile (forecast (app rt))) as [h|];
    try (repeat split; reflexivity).
  flag_raised.
Qed.

Lemma handleGenerateImage_raises :
  raisesGlobalFlag ImageGenerator.handleGenerateImage promptGiven.
Proof.
  intros rt rt'. subst rt'.
  unfold call, ImageGenerator.handleGenerateImage, promptGiven.
  destruct (JsString.truthy (JsString.trim (prompt (imageGenerator (app rt)))));
    cbn [negb]; [flag_raised | repeat split; reflexivity].
Qed.

Lemma handleGenerateSlogans_raises :
  raisesGlobalFlag SloganGenerator.handleGenerateSlogans contextGiven.
Proof.
  intros rt rt'. subst rt'.
  unfold call, SloganGenerator.handleGenerateSlogans, contextGiven.
  destruct (JsString.truthy (JsString.trim (context (sloganGenerator (app rt)))));
    cbn [negb]; [flag_raised | repeat split; reflexivity].
Qed.

Lemma handleProcessVideo_local :
  raisesLocalFlag YouTubeQA.handleProcessVideo linkGiven isProcessing.
Proof.
  intros rt rt'. subst rt'.
  unfold call, YouTubeQA.handleProcessVideo, linkGiven.
  destruct (JsString.truthy (JsString.trim (youtubeUrl (youTubeQA (app rt)))));
    cbn [negb andb]; [|repeat split; reflexivity].
  destruct (RegExp.test_anchored YouTubeQA.youtubeRegex
              (youtubeUrl (youTubeQA (app rt))));
    cbn [negb]; [|repeat split; reflexivity].
  split; [reflexivity | flag_raised].
Qed.

Lemma handleAskQuestion_local :
  raisesLocalFlag YouTubeQA.handleAskQuestion questionReady isQuerying.
Proof.
  intros rt rt'. subst rt'.
  unfold call, YouTubeQA.handleAskQuestion, questionReady.
  destruct (JsString.truthy (JsString.trim (question (youTubeQA (app rt)))));
    cbn [negb andb]; [|repeat split; reflexivity].
  destruct (videoInfo (youTubeQA (app rt)));
    [|repeat split; reflexivity].
  split; [reflexivity | flag_raised].
Qed.

(** C4, as the code has it. The Forecast, Image and Slogan handlers set
    the global loading flag when they start their request (both files
    chosen; a prompt, a context that is not blank) and clear it when the
    request settles, be it with a success, a declared failure or a
    thrown error.  The two Video-QA handlers never touch the global
    flag: they raise and lower the page's own [isProcessing] and
    [isQuerying] in the same way. *)
Theorem busy_flags_follow_requests :
  raisesGlobalFlag Forecast.handleRunForecast forecastReady
  /\ raisesGlobalFlag ImageGenerator.handleGenerateImage promptGiven
  /\ raisesGlobalFlag SloganGenerator.handleGenerateSlogans contextGiven
  /\ raisesLocalFlag YouTubeQA.handleProcessVideo linkGiven isProcessing
  /\ raisesLocalFlag YouTubeQA.handleAskQuestion questionReady isQuerying.
Proof.
  split; [apply handleRunForecast_raises|].
  split; [apply handleGenerateImage_raises|].
  split; [apply handleGenerateSlogans_raises|].
  split; [apply handleProcessVideo_local | apply handleAskQuestion_local].
Qed.

(** C4 fails as worded: while the Video-QA page has an ingestion in
    flight the global flag is still down; only the page's own
    [isProcessing] is up. *)
Lemma video_ingestion_leaves_global_flag_down :
  let rt := run sampleToString
              [EditYoutubeUrl "https://www.youtube.com/watch?v=abc123"; ProcessVideo]
              (boot initialState) in
  inFlight 0 rt = Some "/rag/process"
  /\ AppContext.isLoading (appContext (app rt)) = false
  /\ isProcessing (youTubeQA (app rt)) = true.
Proof. repeat split. Qed.

(** ** Queries need a video (C6) *)

(** C6. With no video held, asking a question starts no request and
    suspends nothing; all it does is show one error, and for a question
    that is not blank this error is the missing-video one. *)
Theorem query_without_video_fails_locally (rt : runtime) :
  videoInfo (youTubeQA (app rt)) = None ->
  let rt' := call YouTubeQA.handleAskQuestion rt in
  sent rt' = sent rt
  /\ waiting rt' = waiting rt
  /\ (exists message, app rt' = showToast (ToastError message) (app rt))
  /\ (JsString.truthy (JsString.trim (question (youTubeQA (app rt)))) = true ->
      app rt' = showToast (ToastError "Please process a video first") (app rt)).
Proof.
  intros Hnone rt'. subst rt'. unfold call, YouTubeQA.handleAskQuestion.
  rewrite Hnone.
  destruct (JsString.truthy (JsString.trim (question (youTubeQA (app rt)))));
    cbn; repeat split; eauto; discriminate.
Qed.

Lemma query_without_video_fails_locally_witness :
  let rt := run sampleToString [EditQuestion "What is this about?"; AskQuestion]
              (boot initialState) in
  sent rt = [] /\ toasts (app rt) = [ToastError "Please process a video first"].
Proof.
  pose proof (query_without_video_fails_locally
    (run sampleToString [EditQuestion "What is this about?"] (boot initialState))
    eq_refl) as (Hsent & _ & _ & Htoast).
  split; [exact Hsent | exact (f_equal toasts (Htoast eq_refl))].
Defined.

(** ** Trimming *)

Lemma trimStart_empty (t : string) :
  JsString.trimStart t = "" ->
  forall c, In c (list_ascii_of_string t) -> JsString.isWhiteSpace c = true.
Proof.
  induction t as [|a t IH]; simpl; intros H c Hin; [contradiction|].
  destruct (JsString.isWhiteSpace a) eqn:Ha; [|discriminate].
  destruct Hin as [<-|Hin]; auto.
Qed.

Lemma In_reverse_onto (c : ascii) (s acc : string) :
  In c (list_ascii_of_string acc) ->
  In c (list_ascii_of_string (JsString.reverse_onto s acc)).
Proof.
  revert acc. induction s as [|a s IH]; simpl; intros acc H; [assumption|].
  apply IH. simpl. now right.
Qed.

Lemma reverse_onto_nonempty (s : string) (c : ascii) (acc : string) :
  JsString.truthy (JsString.reverse_onto s (String c acc)) = true.
Proof.
  revert c acc. induction s as [|a s IH]; simpl; intros c acc; [reflexivity|].
  apply IH.
Qed.

(** A string that starts with something else than white space does not
    trim to the empty string. *)
Lemma trim_truthy (c : ascii) (s : string) :
  JsString.isWhiteSpace c = false ->
  JsString.truthy (JsString.trim (String c s)) = true.
Proof.
  intros Hc. unfold JsString.trim, JsString.trimEnd.
  cbn [JsString.trimStart]. rewrite Hc.
  destruct (JsString.trimStart (JsString.reverse (String c s))) as [|d t] eqn:Ht.
  - pose proof (trimStart_empty _ Ht c) as Hws.
    rewrite Hws in Hc; [discriminate|].
    unfold JsString.reverse. cbn [JsString.reverse_onto].
    apply In_reverse_onto. simpl. now left.
  - unfold JsString.reverse. cbn [JsString.reverse_onto].
    apply reverse_onto_nonempty.
Qed.

(** ** The matcher against the words of a pattern *)

Lemma stripPrefix_spec (p s rest : string) :
  JsString.stripPrefix p s = Some rest <-> s = p ++ rest.
Proof.
  revert s. induction p as [|a p IH]; intros s; simpl.
  - split; congruence.
  - destruct s as [|b s].
    + split; discriminate.
    + destruct (Ascii.eqb_spec a b) as [->|Hne].
      * rewrite IH. split; congruence.
      * split; [discriminate | congruence].
Qed.

Lemma stripPrefix_append (p rest : string) :
  JsString.stripPrefix p (p ++ rest) = Some rest.
Proof. now apply stripPrefix_spec. Qed.

Lemma classPlus_sound (cls : ascii -> bool) (s t : string) :
  In t (RegExp.classPlus cls s) ->
  exists w, RegExp.matches (RegExp.ClassPlus cls) w /\ s = w ++ t.
Proof.
  induction s as [|c s IH]; simpl; [contradiction|].
  destruct (cls c) eqn:Hc; [|contradiction].
  intros Hin. apply in_app_or in Hin as [Hin|[<-|[]]].
  - destruct (IH Hin) as (w & Hw & ->).
    exists (String c w). split; [now apply RegExp.m_plus_more | reflexivity].
  - exists (String c ""). split; [now apply RegExp.m_plus_one | reflexivity].
Qed.

Lemma classPlus_complete (cls : ascii -> bool) (w t : string) :
  RegExp.matches (RegExp.ClassPlus cls) w -> In t (RegExp.classPlus cls (w ++ t)).
Proof.
  induction w as [|c w IH]; intros H; inversion H; subst; simpl;
    match goal with Hc : cls c = true |- _ => rewrite Hc end;
    apply in_or_app.
  - right. now left.
  - left. now apply IH.
Qed.

Lemma residuals_sound (r : RegExp.regex) :
  forall s t, In t (RegExp.residuals r s) ->
              exists w, RegExp.matches r w /\ s = w ++ t.
Proof.
  induction r as [p|r1 IH1 r2 IH2|r1 IH1 r2 IH2|r1 IH1|cls]; intros s t; simpl.
  - destruct (JsString.stripPrefix p s) as [rest|] eqn:Hp; [|contradiction].
    intros [<-|[]]. apply stripPrefix_spec in Hp.
    exists p. split; [constructor | assumption].
  - intros Hin. apply in_app_or in Hin as [Hin|Hin].
    + destruct (IH1 _ _ Hin) as (w & Hw & ->). exists w. split; [now apply RegExp.m_alt_l|reflexivity].
    + destruct (IH2 _ _ Hin) as (w & Hw & ->). exists w. split; [now apply RegExp.m_alt_r|reflexivity].
  - intros Hin. apply in_flat_map in Hin as (mid & Hmid & Hin).
    destruct (IH1 _ _ Hmid) as (w1 & Hw1 & ->).
    destruct (IH2 _ _ Hin) as (w2 & Hw2 & ->).
    exists (w1 ++ w2). split; [now constructor | now rewrite append_assoc].
  - intros Hin. apply in_app_or in Hin as [Hin|[<-|[]]].
    + destruct (IH1 _ _ Hin) as (w & Hw & ->). exists w. split; [now apply RegExp.m_opt_some|reflexivity].
    + exists "". split; [apply RegExp.m_opt_none | reflexivity].
  - apply classPlus_sound.
Qed.

Lemma residuals_complete (r : RegExp.regex) (w : string) :
  RegExp.matches r w -> forall t, In t (RegExp.residuals r (w ++ t)).
Proof.
  induction 1 as [p|r1 r2 w H IH|r1 r2 w H IH|r1 r2 w1 w2 H1 IH1 H2 IH2
                 |r w H IH|r|cls c Hc|cls c w Hc H IH]; intros t; simpl.
  - rewrite stripPrefix_append. now left.
  - apply in_or_app. left. apply IH.
  - apply in_or_app. right. apply IH.
  - apply in_flat_map. exists (w2 ++ t). split.
    + rewrite append_assoc. apply IH1.
    + apply IH2.
  - apply in_or_app. left. apply IH.
  - apply in_or_app. right. now left.
  - rewrite Hc. apply in_or_app. right. now left.
  - rewrite Hc. apply in_or_app. left. apply (IH t).
Qed.

(** [/^r/.test(s)] holds exactly when [s] starts with a word of [r]. *)
Lemma test_anchored_spec (r : RegExp.regex) (s : string) :
  RegExp.test_anchored r s = true
  <-> exists w rest, RegExp.matches r w /\ s = w ++ rest.
Proof.
  unfold RegExp.test_anchored. split.
  - destruct (RegExp.residuals r s) as [|t l] eqn:Hres; [discriminate|].
    intros _. destruct (residuals_sound r s t) as (w & Hw & ->).
    + rewrite Hres. now left.
    + now exists w, t.
  - intros (w & rest & Hw & ->).
    pose proof (residuals_complete r w Hw rest) as Hin.
    destruct (RegExp.residuals r (w ++ rest)); [contradiction | reflexivity].
Qed.

Lemma classPlus_word (cls : ascii -> bool) (w : string) :
  RegExp.matches (RegExp.ClassPlus cls) w
  <-> w <> "" /\ forall c, In c (list_ascii_of_string w) -> cls c = true.
Proof.
  split.
  - induction w as [|a w IH]; intros H; inversion H; subst.
    + split; [discriminate|]. simpl. intros c [<-|[]]. assumption.
    + split; [discriminate|]. simpl. intros c [<-|Hin]; [assumption|].
      now apply IH.
  - induction w as [|a w IH]; intros [Hne Hall]; [congruence|].
    destruct w as [|b w].
    + apply RegExp.m_plus_one. apply Hall. now left.
    + apply RegExp.m_plus_more.
      * apply Hall. now left.
      * apply IH. split; [discriminate|]. intros c Hin. apply Hall. now right.
Qed.

(** ** Video links (C5) *)

Ltac invert_match H := inversion H; subst; clear H.

(** The words of [youtubeRegex]. *)
Lemma youtubeRegex_words (w : string) :
  RegExp.matches YouTubeQA.youtubeRegex w
  <-> exists scheme www host id,
        w = scheme ++ www ++ host ++ id
        /\ (scheme = "" \/ scheme = "http://" \/ scheme = "https://")
        /\ (www = "" \/ www = "www.")
        /\ (host = "youtube.com/watch?v=" \/ host = "youtu.be/")
        /\ RegExp.matches (RegExp.ClassPlus RegExp.isWordOrHyphen) id.
Proof.
  unfold YouTubeQA.youtubeRegex. split.
  - intros H. invert_match H.
    match goal with
    | H1 : RegExp.matches (RegExp.Opt _) ?s,
      H2 : RegExp.matches (RegExp.Cat (RegExp.Opt _) _) _ |- _ =>
        rename s into scheme; invert_match H2
    end.
    match goal with
    | H1 : RegExp.matches (RegExp.Opt (RegExp.Lit "www.")) ?s,
      H2 : RegExp.matches (RegExp.Cat (RegExp.Alt _ _) _) _ |- _ =>
        rename s into www; invert_match H2
    end.
    match goal with
    | H1 : RegExp.matches (RegExp.Alt _ _) ?s,
      H2 : RegExp.matches (RegExp.ClassPlus _) ?i |- _ =>
        exists scheme, www, s, i
    end.
    split; [reflexivity|].
    split.
    { match goal with
      | H : RegExp.matches (RegExp.Opt (RegExp.Cat _ _)) _ |- _ => invert_match H
      end; [|now left].
      match goal with H : RegExp.matches (RegExp.Cat _ _) _ |- _ => invert_match H end.
      match goal with H : RegExp.matches (RegExp.Cat _ _) _ |- _ => invert_match H end.
      repeat match goal with
             | H : RegExp.matches (RegExp.Lit _) _ |- _ => invert_match H
             end.
      match goal with H : RegExp.matches (RegExp.Opt _) _ |- _ => invert_match H end.
      - match goal with H : RegExp.matches (RegExp.Lit _) _ |- _ => invert_match H end.
        right; right; reflexivity.
      - right; left; reflexivity. }
    split.
    { match goal with
      | H : RegExp.matches (RegExp.Opt (RegExp.Lit "www.")) _ |- _ => invert_match H
      end; [|now left].
      match goal with H : RegExp.matches (RegExp.Lit _) _ |- _ => invert_match H end.
      now right. }
    split; [|assumption].
    match goal with H : RegExp.matches (RegExp.Alt _ _) _ |- _ => invert_match H end;
      match goal with H : RegExp.matches (RegExp.Lit _) _ |- _ => invert_match H end;
      [now left | now right].
  - intros (scheme & www & host & id & -> & Hs & Hw & Hh & Hid).
    apply RegExp.m_cat; [|apply RegExp.m_cat; [|apply RegExp.m_cat; [|exact Hid]]].
    + destruct Hs as [-> | [-> | ->]].
      * apply RegExp.m_opt_none.
      * apply RegExp.m_opt_some.
        apply (RegExp.m_cat _ _ "http" "://"); [constructor|].
        apply (RegExp.m_cat _ _ "" "://"); [apply RegExp.m_opt_none | constructor].
      * apply RegExp.m_opt_some.
        apply (RegExp.m_cat _ _ "http" "s://"); [constructor|].
        apply (RegExp.m_cat _ _ "s" "://"); [|constructor].
        apply RegExp.m_opt_some. constructor.
    + destruct Hw as [-> | ->]; [apply RegExp.m_opt_none|].
      apply RegExp.m_opt_some. constructor.
    + destruct Hh as [-> | ->]; [apply RegExp.m_alt_l | apply RegExp.m_alt_r]; constructor.
Qed.

Lemma videoLinkPrefix_test (s : string) :
  videoLinkPrefix s <-> RegExp.test_anchored YouTubeQA.youtubeRegex s = true.
Proof.
  rewrite test_anchored_spec. split.
  - intros (scheme & www & host & id & rest & -> & Hs & Hw & Hh & Hne & Hall).
    exists (scheme ++ www ++ host ++ id), rest. split.
    + apply youtubeRegex_words. exists scheme, www, host, id.
      repeat (split; [assumption || reflexivity|]).
      apply classPlus_word. now split.
    + now rewrite !append_assoc.
  - intros (w & rest & Hw & ->).
    apply youtubeRegex_words in Hw as (scheme & www & host & id & -> & Hs & Hw & Hh & Hid).
    apply classPlus_word in Hid as [Hne Hall].
    exists scheme, www, host, id, rest.
    repeat (split; [assumption || (now rewrite !append_assoc)|]).
    assumption.
Qed.

(** A string with the link shape at its front is not blank. *)
Lemma videoLinkPrefix_not_blank (s : string) :
  videoLinkPrefix s -> JsString.truthy (JsString.trim s) = true.
Proof.
  intros (scheme & www & host & id & rest & -> & Hs & Hw & Hh & _).
  destruct Hs as [-> | [-> | ->]]; try (apply trim_truthy; reflexivity).
  destruct Hw as [-> | ->]; try (apply trim_truthy; reflexivity).
  destruct Hh as [-> | ->]; apply trim_truthy; reflexivity.
Qed.

(** C5, as the code has it. The page sends a string to the ingestion
    operation exactly when the string starts with an optional [http://]
    or [https://], an optional [www.], then [youtube.com/watch?v=] or
    [youtu.be/], then one or more word or hyphen characters; whatever
    follows is not looked at.  Every other string is turned down with
    an error message, without a request. *)
Theorem video_sent_iff_link_prefix (rt : runtime) :
  let link := youtubeUrl (youTubeQA (app rt)) in
  let rt' := call YouTubeQA.handleProcessVideo rt in
  (videoLinkPrefix link
   /\ sent rt' = (sent rt ++ [jsonRequest "/rag/process" "youtube_url" link])%list)
  \/ (~ videoLinkPrefix link
      /\ sent rt' = sent rt
      /\ waiting rt' = waiting rt
      /\ exists message, app rt' = showToast (ToastError message) (app rt)).
Proof.
  intros link rt'. subst rt'. unfold call, YouTubeQA.handleProcessVideo.
  fold link.
  destruct (RegExp.test_anchored YouTubeQA.youtubeRegex link) eqn:Htest.
  - left. apply videoLinkPrefix_test in Htest.
    rewrite (videoLinkPrefix_not_blank _ Htest).
    split; [assumption | reflexivity].
  - right. split.
    + intros Hlink. apply videoLinkPrefix_test in Hlink. congruence.
    + destruct (negb (JsString.truthy (JsString.trim link)));
        cbn; repeat split; eauto.
Qed.

(** C5 fails as worded: a link without a scheme is sent, and so is a
    link followed by arbitrary text. *)
Lemma schemeless_link_is_sent :
  JsString.stripPrefix "http" "youtu.be/abc" = None
  /\ sent (run sampleToString [EditYoutubeUrl "youtu.be/abc"; ProcessVideo]
             (boot initialState))
     = [jsonRequest "/rag/process" "youtube_url" "youtu.be/abc"]
  /\ sent (run sampleToString
             [EditYoutubeUrl "https://youtu.be/abc is not a link"; ProcessVideo]
             (boot initialState))
     = [jsonRequest "/rag/process" "youtube_url" "https://youtu.be/abc is not a link"].
Proof. repeat split. Qed.

(** ** Suspended handlers along a run *)

Lemma take_Some (id : nat) (l : list suspended) (p : suspended) (rest : list suspended) :
  take id l = Some (p, rest) -> In p l /\ forall q, In q rest -> In q l.
Proof.
  revert p rest. induction l as [|a l IH]; simpl; intros p rest H; [discriminate|].
  destruct (Nat.eqb (ticket a) id).
  - injection H as <- <-. split; [now left | intros q Hq; now right].
  - destruct (take id l) as [[q0 rest0]|]; [|discriminate].
    injection H as <- <-. destruct (IH _ _ eq_refl) as [Hin Hrest].
    split; [now right|]. intros q [<-|Hq]; [now left | right; now apply Hrest].
Qed.

Ltac new_exchange :=
  cbn; apply Forall_app; split; [assumption|];
  apply Forall_cons; [|apply Forall_nil];
  intros r rt0;
  unfold forecastPayload, ingestedVideo, acceptedBody;
  settle_cases; repeat split; try reflexivity;
  intros Hurl; try discriminate Hurl; eexists; reflexivity.

Section Runs.

Variable Number_toString : number -> string.

(** Calling a handler keeps the suspended handlers well behaved and
    changes neither the stored forecast nor the held video. *)
Lemma step_call (e : event) (rt : runtime) :
  (forall id r, e <> Settle id r) ->
  Forall wellBehaved (waiting rt) ->
  Forall wellBehaved (waiting (step Number_toString e rt))
  /\ AppContext.forecastResults (appContext (app (step Number_toString e rt)))
     = AppContext.forecastResults (appContext (app rt))
  /\ videoInfo (youTubeQA (app (step Number_toString e rt)))
     = videoInfo (youTubeQA (app rt)).
Proof.
  intros Hcall Hwb. destruct e as [file type| |v| | |v| | |v| |v| |id r];
    try (exfalso; now apply (Hcall id r)); unfold step, call.
  - destruct file as [f|]; [destruct type|]; cbn; auto.
  - unfold Forecast.handleRunForecast.
    destruct (customersFile (forecast (app rt)));
      destruct (campaignHistoryFile (forecast (app rt)));
      (split; [|cbn; auto]); try (cbn; assumption).
    new_exchange.
  - cbn; auto.
  - unfold ImageGenerator.generatePromptFromForecast.
    destruct (AppContext.forecastResults (appContext (app rt))) eqn:Hfr;
      cbn; rewrite ?Hfr; auto.
  - unfold ImageGenerator.handleGenerateImage.
    destruct (negb _); (split; [|cbn; auto]); [cbn; assumption|].
    new_exchange.
  - cbn; auto.
  - unfold SloganGenerator.generateContextFromForecast.
    destruct (AppContext.forecastResults (appContext (app rt))) eqn:Hfr;
      cbn; rewrite ?Hfr; auto.
  - unfold SloganGenerator.handleGenerateSlogans.
    destruct (negb _); (split; [|cbn; auto]); [cbn; assumption|].
    new_exchange.
  - cbn; auto.
  - unfold YouTubeQA.handleProcessVideo.
    destruct (negb _); [cbn; auto|].
    destruct (negb _); (split; [|cbn; auto]); [cbn; assumption|].
    new_exchange.
  - cbn; auto.
  - unfold YouTubeQA.handleAskQuestion.
    destruct (negb _); [cbn; auto|].
    destruct (videoInfo (youTubeQA (app rt))) eqn:Hvi;
      (split; [|cbn; rewrite ?Hvi; auto]); [|cbn; assumption].
    new_exchange.
Qed.

Lemma settle_spec (id : nat) (r : Http.result) (rt : runtime) :
  Forall wellBehaved (waiting rt) ->
  let rt' := settle id r rt in
  Forall wellBehaved (waiting rt')
  /\ sent rt' = sent rt
  /\ AppContext.forecastResults (appContext (app rt'))
     = match inFlight id rt with
       | Some url =>
           match (if String.eqb url "/forecast" then forecastPayload r else None) with
           | Some v => Some v
           | None => AppContext.forecastResults (appContext (app rt))
           end
       | None => AppContext.forecastResults (appContext (app rt))
       end
  /\ videoInfo (youTubeQA (app rt'))
     = match inFlight id rt with
       | Some url =>
           match (if String.eqb url "/rag/process" then ingestedVideo r else None) with
           | Some v => Some v
           | None => videoInfo (youTubeQA (app rt))
           end
       | None => videoInfo (youTubeQA (app rt))
       end
  /\ question (youTubeQA (app rt')) = question (youTubeQA (app rt))
  /\ (inFlight id rt = Some "/forecast" ->
      exists message,
        toasts (app rt')
        = (toasts (app rt) ++ [closingToast (forecastPayload r) message])%list)
  /\ (inFlight id rt = Some "/rag/process" ->
      exists message,
        toasts (app rt')
        = (toasts (app rt) ++ [closingToast (ingestedVideo r) message])%list).
Proof.
  intros Hwb rt'. subst rt'. unfold settle, inFlight.
  destruct (take id (waiting rt)) as [[p rest]|] eqn:Htake;
    [|repeat split; auto; discriminate].
  destruct (take_Some _ _ _ _ Htake) as [Hin Hrest].
  rewrite Forall_forall in Hwb.
  destruct (Hwb p Hin r {| app := app rt; sent := sent rt; waiting := rest |})
    as (Hsent & Hwait & Hfr & Hvi & Hq & Hft & Hvt).
  rewrite Hwait. cbn [waiting sent app] in *.
  repeat split; try assumption.
  - apply Forall_forall. intros q Hq'. apply Hwb. now apply Hrest.
  - intros [= Hurl]. now apply Hft.
  - intros [= Hurl]. now apply Hvt.
Qed.

Lemma step_wellBehaved (e : event) (rt : runtime) :
  Forall wellBehaved (waiting rt) ->
  Forall wellBehaved (waiting (step Number_toString e rt)).
Proof.
  intros Hwb. destruct e;
    try (apply step_call; [intros; discriminate | assumption]).
  apply (settle_spec id r rt Hwb).
Qed.

Lemma run_wellBehaved (es : list event) (rt : runtime) :
  Forall wellBehaved (waiting rt) ->
  Forall wellBehaved (waiting (run Number_toString es rt)).
Proof.
  revert rt. induction es as [|e es IH]; simpl; intros rt Hwb; [assumption|].
  apply IH. now apply step_wellBehaved.
Qed.

Lemma step_store (e : event) (rt : runtime) :
  Forall wellBehaved (waiting rt) ->
  AppContext.forecastResults (appContext (app (step Number_toString e rt)))
  = match delivered e rt with
    | Some v => Some v
    | None => AppContext.forecastResults (appContext (app rt))
    end.
Proof.
  intros Hwb. destruct e;
    try (apply step_call; [intros; discriminate | assumption]).
  cbn [step delivered].
  destruct (settle_spec id r rt Hwb) as (_ & _ & Hfr & _).
  rewrite Hfr. destruct (inFlight id rt); reflexivity.
Qed.

Lemma run_store (es : list event) (rt : runtime) :
  Forall wellBehaved (waiting rt) ->
  AppContext.forecastResults (appContext (app (run Number_toString es rt)))
  = lastDelivered Number_toString es rt
      (AppContext.forecastResults (appContext (app rt))).
Proof.
  revert rt. induction es as [|e es IH]; simpl; intros rt Hwb; [reflexivity|].
  rewrite IH by now apply step_wellBehaved.
  now rewrite step_store.
Qed.

End Runs.

(** ** The stored forecast (C1, C7) *)

Section Store.

Variable Number_toString : number -> string.

(** Along any sequence of handler calls and settlements, taken
    directly and not through the buttons, the store holds the forecast
    that was delivered last: the payload of the successful forecast
    response that settled most recently, or the initial value when none
    has. *)
Theorem store_holds_last_delivered (s : AppState) (es : list event) :
  AppContext.forecastResults (appContext (app (run Number_toString es (boot s))))
  = lastDelivered Number_toString es (boot s)
      (AppContext.forecastResults (appContext s)).
Proof.
  apply (run_store Number_toString es (boot s)). apply Forall_nil.
Qed.

(** C7. A forecast request in flight that settles without a successful
    payload (a network failure, a status outside 2xx, a null or empty body, a
    body whose status is not "success" or that has no results) closes
    with an error notification and leaves the stored forecast, or its
    absence, exactly as it was. *)
Theorem failed_forecast_leaves_store (s : AppState) (es : list event)
  (id : nat) (r : Http.result) :
  let rt := run Number_toString es (boot s) in
  inFlight id rt = Some "/forecast" ->
  forecastPayload r = None ->
  AppContext.forecastResults (appContext (app (settle id r rt)))
  = AppContext.forecastResults (appContext (app rt))
  /\ exists message,
       toasts (app (settle id r rt)) = (toasts (app rt) ++ [ToastError message])%list.
Proof.
  intros rt Hflight Hfailed.
  assert (Hwb : Forall wellBehaved (waiting rt))
    by (apply run_wellBehaved; apply Forall_nil).
  destruct (settle_spec id r rt Hwb) as (_ & _ & Hfr & _ & _ & Htoast & _).
  rewrite Hflight, Hfailed in Hfr. cbn in Hfr.
  split; [exact Hfr|].
  destruct (Htoast Hflight) as [message Hm].
  rewrite Hfailed in Hm. now exists message.
Qed.

(** ** The held video (C10) *)

(** C10. An ingestion in flight that settles without a video (a network
    failure, a status outside 2xx, a null or empty body, a body without
    [video_info]) closes with an error notification and leaves the held
    video as it was; if a video was held, a question that is not blank
    is still sent afterwards. *)
Theorem failed_ingestion_keeps_video (s : AppState) (es : list event)
  (id : nat) (r : Http.result) :
  let rt := run Number_toString es (boot s) in
  inFlight id rt = Some "/rag/process" ->
  ingestedVideo r = None ->
  let rt' := settle id r rt in
  videoInfo (youTubeQA (app rt')) = videoInfo (youTubeQA (app rt))
  /\ (exists message,
        toasts (app rt') = (toasts (app rt) ++ [ToastError message])%list)
  /\ (forall v,
        videoInfo (youTubeQA (app rt)) = Some v ->
        JsString.truthy (JsString.trim (question (youTubeQA (app rt')))) = true ->
        sent (step Number_toString AskQuestion rt')
        = (sent rt'
           ++ [jsonRequest "/rag/query" "question" (question (youTubeQA (app rt')))])%list).
Proof.
  intros rt Hflight Hfailed rt'. subst rt'.
  assert (Hwb : Forall wellBehaved (waiting rt))
    by (apply run_wellBehaved; apply Forall_nil).
  destruct (settle_spec id r rt Hwb) as (_ & _ & _ & Hvi & _ & _ & Htoast).
  rewrite Hflight, Hfailed in Hvi. cbn in Hvi.
  split; [exact Hvi|]. split.
  - destruct (Htoast Hflight) as [message Hm].
    rewrite Hfailed in Hm. now exists message.
  - intros v Hheld Hasked. rewrite Hheld in Hvi.
    cbn [step]. unfold call, YouTubeQA.handleAskQuestion.
    rewrite Hasked, Hvi. reflexivity.
Qed.

End Store.

(** The Run Forecast button is disabled while the loading flag is up. *)
Lemma runDisabled_while_loading (s : AppState) :
  AppContext.isLoading (appContext s) = true -> Forecast.runDisabled s = true.
Proof.
  intros H. unfold Forecast.runDisabled. rewrite H.
  destruct (customersFile (forecast s)), (campaignHistoryFile (forecast s)); reflexivity.
Qed.

(** The handler itself keeps no order among its requests; that is left
    to the button.  Called twice directly, past the disabled button, it
    has two requests in flight; when the second (ticket 1) is answered
    first and the first (ticket 0) after it, the store ends up with the
    answer to the first. *)
Lemma stale_forecast_overwrites_newer :
  let submitted :=
    run sampleToString (filesChosen ++ [RunForecast; RunForecast]) (boot initialState) in
  let settled :=
    run sampleToString
      [Settle 1 (forecastOk (sampleForecast "Newer"));
       Settle 0 (forecastOk (sampleForecast "Older"))]
      submitted in
  map ticket (waiting submitted) = [0; 1]
  /\ AppContext.forecastResults (appContext (app settled))
     = Some (sampleForecast "Older")
  /\ sampleForecast "Older" <> sampleForecast "Newer".
Proof.
  repeat split. discriminate.
Qed.

Lemma failed_forecast_leaves_store_witness :
  let rt :=
    run sampleToString (filesChosen ++ [RunForecast])
      (boot (setForecastResults (Some (sampleForecast "Email")) initialState)) in
  AppContext.forecastResults (appContext (app (settle 0 Http.NetworkError rt)))
  = Some (sampleForecast "Email").
Proof.
  exact (proj1 (failed_forecast_leaves_store sampleToString
    (setForecastResults (Some (sampleForecast "Email")) initialState)
    (filesChosen ++ [RunForecast]) 0 Http.NetworkError eq_refl eq_refl)).
Defined.

Lemma failed_ingestion_keeps_video_witness :
  let rt :=
    run sampleToString
      [EditYoutubeUrl "https://www.youtube.com/watch?v=abc123"; ProcessVideo;
       Settle 0 (videoOk sampleVideo);
       EditQuestion "What is this about?";
       EditYoutubeUrl "https://youtu.be/other"; ProcessVideo]
      (boot initialState) in
  let rt' := settle 1 (jsonResponse 500 Backend.empty) rt in
  videoInfo (youTubeQA (app rt')) = Some sampleVideo
  /\ sent (step sampleToString AskQuestion rt')
     = (sent rt' ++ [jsonRequest "/rag/query" "question" "What is this about?"])%list.
Proof.
  pose proof (failed_ingestion_keeps_video sampleToString initialState
    [EditYoutubeUrl "https://www.youtube.com/watch?v=abc123"; ProcessVideo;
     Settle 0 (videoOk sampleVideo);
     EditQuestion "What is this about?";
     EditYoutubeUrl "https://youtu.be/other"; ProcessVideo]
    1 (jsonResponse 500 Backend.empty) eq_refl eq_refl) as (Hkept & _ & Hasks).
  split; [exact Hkept | exact (Hasks sampleVideo eq_refl eq_refl)].
Defined.

(** * Further properties of the handlers *)

(** ** Suspended handlers resume as written *)

Ltac resumes_as_written :=
  cbn; apply Forall_app; split; [assumption|];
  apply Forall_cons; [|apply Forall_nil];
  split; [reflexivity|];
  intros r rt0;
  unfold afterAwait, forecastSettled, imageSettled, slogansSettled, videoSettled,
    answerSettled, caught, forecastPayload, imagePayload, slogansPayload,
    ingestedVideo, answerPayload, acceptedBody;
  settle_cases; reflexivity.

Lemma take_length (id : nat) (l : list suspended) (p : suspended)
  (rest : list suspended) :
  take id l = Some (p, rest) -> List.length l = S (List.length rest).
Proof.
  revert p rest. induction l as [|a l IH]; simpl; intros p rest H; [discriminate|].
  destruct (Nat.eqb (ticket a) id).
  - now injection H as <- <-.
  - destruct (take id l) as [[q0 rest0]|]; [|discriminate].
    injection H as <- <-. simpl. f_equal. now apply (IH q0 rest0).
Qed.

Section Written.

Variable Number_toString : number -> string.

Lemma call_written (e : event) (rt : runtime) :
  (forall id r, e <> Settle id r) ->
  Forall resumesAsWritten (waiting rt) ->
  Forall resumesAsWritten (waiting (step Number_toString e rt)).
Proof.
  intros Hcall Hw. destruct e as [file type| |v| | |v| | |v| |v| |id r];
    try (exfalso; now apply (Hcall id r)); unfold step, call.
  - destruct file as [f|]; [destruct type|]; cbn; assumption.
  - unfold Forecast.handleRunForecast.
    destruct (customersFile (forecast (app rt)));
      destruct (campaignHistoryFile (forecast (app rt)));
      try (cbn; assumption).
    resumes_as_written.
  - cbn; assumption.
  - unfold ImageGenerator.generatePromptFromForecast.
    destruct (AppContext.forecastResults (appContext (app rt))); cbn; assumption.
  - unfold ImageGenerator.handleGenerateImage.
    destruct (negb _); [cbn; assumption|].
    resumes_as_written.
  - cbn; assumption.
  - unfold SloganGenerator.generateContextFromForecast.
    destruct (AppContext.forecastResults (appContext (app rt))); cbn; assumption.
  - unfold SloganGenerator.handleGenerateSlogans.
    destruct (negb _); [cbn; assumption|].
    resumes_as_written.
  - cbn; assumption.
  - unfold YouTubeQA.handleProcessVideo.
    destruct (negb _); [cbn; assumption|].
    destruct (negb _); [cbn; assumption|].
    resumes_as_written.
  - cbn; assumption.
  - unfold YouTubeQA.handleAskQuestion.
    destruct (negb _); [cbn; assumption|].
    destruct (videoInfo (youTubeQA (app rt))); [|cbn; assumption].
    resumes_as_written.
Qed.

(** Settling an exchange in flight applies [afterAwait] for its URL,
    sends nothing and takes that one exchange off the waiting list. *)
Lemma settle_written (id : nat) (r : Http.result) (rt : runtime) (url : string) :
  Forall resumesAsWritten (waiting rt) ->
  inFlight id rt = Some url ->
  exists p rest,
    take id (waiting rt) = Some (p, rest)
    /\ Http.path (request p) = url
    /\ isEndpoint url = true
    /\ settle id r rt
       = {| app := afterAwait url r (app rt); sent := sent rt; waiting := rest |}.
Proof.
  intros Hw Hflight. unfold inFlight in Hflight. unfold settle.
  destruct (take id (waiting rt)) as [[p rest]|] eqn:Htake; [|discriminate].
  injection Hflight as Hurl. exists p, rest.
  split; [reflexivity|]. split; [assumption|].
  destruct (take_Some _ _ _ _ Htake) as [Hin _].
  rewrite Forall_forall in Hw. destruct (Hw p Hin) as [Hend Hres].
  split; [now rewrite <- Hurl|]. rewrite Hres. now rewrite Hurl.
Qed.

Lemma step_written (e : event) (rt : runtime) :
  Forall resumesAsWritten (waiting rt) ->
  Forall resumesAsWritten (waiting (step Number_toString e rt)).
Proof.
  intros Hw. destruct e;
    try (apply call_written; [intros; discriminate | assumption]).
  cbn [step]. unfold settle.
  destruct (take id (waiting rt)) as [[p rest]|] eqn:Htake; [|assumption].
  destruct (take_Some _ _ _ _ Htake) as [Hin Hrest].
  rewrite Forall_forall in Hw. rewrite (proj2 (Hw p Hin)). cbn [waiting].
  apply Forall_forall. intros q Hq. apply Hw. now apply Hrest.
Qed.

Lemma run_written (es : list event) (rt : runtime) :
  Forall resumesAsWritten (waiting rt) ->
  Forall resumesAsWritten (waiting (run Number_toString es rt)).
Proof.
  revert rt. induction es as [|e es IH]; simpl; intros rt Hw; [assumption|].
  apply IH. now apply step_written.
Qed.

(** In a state reached from a fresh start, settling an exchange in
    flight is [afterAwait] on the application state. *)
Lemma settle_reached (s : AppState) (es : list event) (id : nat) (r : Http.result)
  (url : string) :
  let rt := run Number_toString es (boot s) in
  inFlight id rt = Some url ->
  isEndpoint url = true
  /\ app (settle id r rt) = afterAwait url r (app rt)
  /\ sent (settle id r rt) = sent rt
  /\ S (List.length (waiting (settle id r rt))) = List.length (waiting rt).
Proof.
  intros rt Hflight.
  assert (Hw : Forall resumesAsWritten (waiting rt))
    by (apply run_written; apply Forall_nil).
  destruct (settle_written id r rt url Hw Hflight)
    as (p & rest & Htake & _ & Hend & ->).
  cbn. repeat split; [assumption|]. symmetry. now apply (take_length id _ p).
Qed.

End Written.

Lemma endpoint_cases (url : string) :
  isEndpoint url = true ->
  url = "/forecast" \/ url = "/img" \/ url = "/slogan"
  \/ url = "/rag/process" \/ url = "/rag/query".
Proof.
  unfold isEndpoint. rewrite !orb_true_iff, !String.eqb_eq. tauto.
Qed.

Ltac by_endpoint H :=
  destruct (endpoint_cases _ H) as [-> | [-> | [-> | [-> | ->]]]].

Ltac after_await :=
  unfold afterAwait; cbn [String.eqb Ascii.eqb Bool.eqb];
  unfold forecastSettled, imageSettled, slogansSettled, videoSettled,
    answerSettled, caught, forecastPayload, imagePayload, slogansPayload,
    ingestedVideo, answerPayload.

(** ** Results of the image, slogan and question requests *)

Section Results.

Variable Number_toString : number -> string.

(** X1. An image request in flight that settles with a 2xx response
    carrying a non-empty [image_url] replaces the shown image by it; on
    every other settlement the image shown before stays.  Either way
    the prompt is kept and the loading flag is lowered. *)
Theorem image_replaced_only_on_success (s : AppState) (es : list event)
  (id : nat) (r : Http.result) :
  let rt := run Number_toString es (boot s) in
  inFlight id rt = Some "/img" ->
  let s' := app (settle id r rt) in
  generatedImage (imageGenerator s')
  = match imagePayload r with
    | Some image => Some image
    | None => generatedImage (imageGenerator (app rt))
    end
  /\ prompt (imageGenerator s') = prompt (imageGenerator (app rt))
  /\ AppContext.isLoading (appContext s') = false
  /\ exists message,
       toasts s' = (toasts (app rt) ++ [closingToast (imagePayload r) message])%list.
Proof.
  intros rt Hflight s'. subst s' rt.
  destruct (settle_reached Number_toString s es id r _ Hflight) as (_ & -> & _).
  after_await.
  destruct (acceptedBody r) as [body|];
    [destruct (Backend.image_url body) as [[|c u]|]|];
    cbn; repeat split; eexists; reflexivity.
Qed.

(** X2. A slogan request in flight that settles with a 2xx response
    carrying a [slogans] array replaces the shown slogans by that array,
    also when it is empty; on every other settlement the slogans shown
    before stay.  Either way the context text is kept and the loading
    flag is lowered. *)
Theorem slogans_replaced_only_on_success (s : AppState) (es : list event)
  (id : nat) (r : Http.result) :
  let rt := run Number_toString es (boot s) in
  inFlight id rt = Some "/slogan" ->
  let s' := app (settle id r rt) in
  slogans (sloganGenerator s')
  = match slogansPayload r with
    | Some list => list
    | None => slogans (sloganGenerator (app rt))
    end
  /\ context (sloganGenerator s') = context (sloganGenerator (app rt))
  /\ AppContext.isLoading (appContext s') = false
  /\ exists message,
       toasts s' = (toasts (app rt) ++ [closingToast (slogansPayload r) message])%list.
Proof.
  intros rt Hflight s'. subst s' rt.
  destruct (settle_reached Number_toString s es id r _ Hflight) as (_ & -> & _).
  after_await.
  destruct (acceptedBody r) as [body|];
    [destruct (Backend.slogans body) as [list|]|];
    cbn; repeat split; eexists; reflexivity.
Qed.

(** X3. A question in flight that settles with a 2xx response carrying
    a non-empty [answer] replaces the shown answer by it; on every other
    settlement, an empty answer included, the answer shown before
    stays.  Either way the question and the held video are kept and
    [isQuerying] is lowered. *)
Theorem answer_replaced_only_on_success (s : AppState) (es : list event)
  (id : nat) (r : Http.result) :
  let rt := run Number_toString es (boot s) in
  inFlight id rt = Some "/rag/query" ->
  let s' := app (settle id r rt) in
  answer (youTubeQA s')
  = match answerPayload r with
    | Some text => text
    | None => answer (youTubeQA (app rt))
    end
  /\ question (youTubeQA s') = question (youTubeQA (app rt))
  /\ videoInfo (youTubeQA s') = videoInfo (youTubeQA (app rt))
  /\ isQuerying (youTubeQA s') = false
  /\ exists message,
       toasts s' = (toasts (app rt) ++ [closingToast (answerPayload r) message])%list.
Proof.
  intros rt Hflight s'. subst s' rt.
  destruct (settle_reached Number_toString s es id r _ Hflight) as (_ & -> & _).
  after_await.
  destruct (acceptedBody r) as [body|];
    [destruct (Backend.answer body) as [[|c u]|]|];
    cbn; repeat split; eexists; reflexivity.
Qed.

(** X4. An ingestion in flight that settles with a 2xx response
    carrying [video_info] makes that video the held one, in place of
    any video held before, and lowers [isProcessing]; the link typed,
    the question and the answer shown, which may belong to the video
    held before, are left as they were. *)
Theorem ingested_video_replaces_held_one (s : AppState) (es : list event)
  (id : nat) (r : Http.result) (v : VideoInfo) :
  let rt := run Number_toString es (boot s) in
  inFlight id rt = Some "/rag/process" ->
  ingestedVideo r = Some v ->
  let s' := app (settle id r rt) in
  videoInfo (youTubeQA s') = Some v
  /\ isProcessing (youTubeQA s') = false
  /\ youtubeUrl (youTubeQA s') = youtubeUrl (youTubeQA (app rt))
  /\ question (youTubeQA s') = question (youTubeQA (app rt))
  /\ answer (youTubeQA s') = answer (youTubeQA (app rt))
  /\ toasts s' = (toasts (app rt) ++ [ToastSuccess "Video processed successfully!"])%list.
Proof.
  intros rt Hflight Hv s'. subst s' rt.
  destruct (settle_reached Number_toString s es id r _ Hflight) as (_ & -> & _).
  after_await. unfold ingestedVideo in Hv.
  destruct (acceptedBody r) as [body|]; [|discriminate].
  rewrite Hv. cbn. repeat split.
Qed.

End Results.

(** ** The loading flag and overlapping requests *)

Ltac payload_cases :=
  repeat first
    [ progress cbn
    | match goal with
      | |- context [match ?x with Some _ => _ | None => _ end] => destruct x
      | |- context [match ?x with EmptyString => _ | String _ _ => _ end] =>
          destruct x
      | |- context [if ?b then _ else _] => destruct b
      end ].

Lemma take_filter (f : suspended -> bool) (id : nat) (l : list suspended)
  (p : suspended) (rest : list suspended) :
  take id l = Some (p, rest) ->
  List.length (filter f l)
  = (if f p then 1 else 0) + List.length (filter f rest).
Proof.
  revert p rest. induction l as [|a l IH]; simpl; intros p rest H; [discriminate|].
  destruct (Nat.eqb (ticket a) id).
  - injection H as <- <-. destruct (f a); reflexivity.
  - destruct (take id l) as [[q0 rest0]|]; [|discriminate].
    injection H as <- <-. pose proof (IH q0 rest0 eq_refl) as Hl. simpl.
    destruct (f a), (f q0); simpl in *; lia.
Qed.

Lemma afterAwait_isLoading (url : string) (r : Http.result) (s : AppState) :
  isEndpoint url = true ->
  AppContext.isLoading (appContext (afterAwait url r s))
  = if usesGlobalFlag url then false else AppContext.isLoading (appContext s).
Proof.
  intros Hend. by_endpoint Hend; after_await; unfold acceptedBody;
    payload_cases; reflexivity.
Qed.

Section Flags.

Variable Number_toString : number -> string.

(** X5. The global loading flag is a plain flag, not a count: when any
    forecast, image or slogan request in flight settles, the flag goes
    down, however many other such requests are still in flight; those
    stay in flight. *)
Theorem global_flag_lowered_by_any_settlement (s : AppState) (es : list event)
  (id : nat) (r : Http.result) (url : string) :
  let rt := run Number_toString es (boot s) in
  inFlight id rt = Some url ->
  usesGlobalFlag url = true ->
  let rt' := settle id r rt in
  AppContext.isLoading (appContext (app rt')) = false
  /\ S (globalInFlight rt') = globalInFlight rt.
Proof.
  intros rt Hflight Hglobal rt'. subst rt' rt.
  remember (run Number_toString es (boot s)) as rt eqn:Hrt.
  assert (Hw : Forall resumesAsWritten (waiting rt))
    by (subst rt; apply run_written; apply Forall_nil).
  destruct (settle_written id r rt url Hw Hflight)
    as (p & rest & Htake & Hurl & Hend & ->).
  cbn [app waiting]. rewrite afterAwait_isLoading, Hglobal by assumption.
  split; [reflexivity|].
  unfold globalInFlight. cbn [waiting].
  rewrite (take_filter holdsGlobalFlag id _ p rest Htake).
  unfold holdsGlobalFlag at 2. now rewrite Hurl, Hglobal.
Qed.

Lemma globalInFlight_app (rt : runtime) (l1 l2 : list suspended) :
  List.length (filter holdsGlobalFlag (l1 ++ l2))
  = List.length (filter holdsGlobalFlag l1) + List.length (filter holdsGlobalFlag l2).
Proof. now rewrite filter_app, length_app. Qed.

Lemma uiStep_flagExact (e : event) (rt : runtime) :
  flagExact rt -> flagExact (uiStep Number_toString e rt).
Proof.
  intros [Hw Hcount]. unfold uiStep.
  destruct (unavailable e (app rt)) eqn:Hav; [now split|].
  split; [now apply step_written|].
  unfold globalInFlight in *.
  destruct e as [file type| |v| | |v| | |v| |v| |id r]; unfold step, call.
  - destruct file as [f|]; [destruct type|]; cbn; assumption.
  - cbn in Hav. unfold Forecast.runDisabled in Hav.
    unfold Forecast.handleRunForecast.
    destruct (customersFile (forecast (app rt))); [|discriminate].
    destruct (campaignHistoryFile (forecast (app rt))); [|discriminate].
    rewrite Hav in Hcount. cbn.
    rewrite (globalInFlight_app rt), Hcount. reflexivity.
  - cbn; assumption.
  - unfold ImageGenerator.generatePromptFromForecast.
    destruct (AppContext.forecastResults (appContext (app rt))); cbn; assumption.
  - cbn in Hav. apply orb_false_elim in Hav as [Hblank Hload].
    unfold ImageGenerator.handleGenerateImage. rewrite Hblank.
    rewrite Hload in Hcount. cbn.
    rewrite (globalInFlight_app rt), Hcount. reflexivity.
  - cbn; assumption.
  - unfold SloganGenerator.generateContextFromForecast.
    destruct (AppContext.forecastResults (appContext (app rt))); cbn; assumption.
  - cbn in Hav. apply orb_false_elim in Hav as [Hblank Hload].
    unfold SloganGenerator.handleGenerateSlogans. rewrite Hblank.
    rewrite Hload in Hcount. cbn.
    rewrite (globalInFlight_app rt), Hcount. reflexivity.
  - cbn; assumption.
  - unfold YouTubeQA.handleProcessVideo.
    destruct (negb _); [cbn; assumption|].
    destruct (negb _); [cbn; assumption|].
    cbn. rewrite (globalInFlight_app rt). cbn. now rewrite Nat.add_0_r.
  - cbn; assumption.
  - unfold YouTubeQA.handleAskQuestion.
    destruct (negb _); [cbn; assumption|].
    destruct (videoInfo (youTubeQA (app rt))); [|cbn; assumption].
    cbn. rewrite (globalInFlight_app rt). cbn. now rewrite Nat.add_0_r.
  - unfold settle.
    destruct (take id (waiting rt)) as [[p rest]|] eqn:Htake; [|assumption].
    destruct (take_Some _ _ _ _ Htake) as [Hin _].
    rewrite Forall_forall in Hw. destruct (Hw p Hin) as [Hend Hres].
    rewrite Hres. cbn [app waiting].
    rewrite afterAwait_isLoading by assumption.
    rewrite (take_filter holdsGlobalFlag id _ p rest Htake) in Hcount.
    unfold holdsGlobalFlag in Hcount at 1.
    destruct (usesGlobalFlag (Http.path (request p))).
    + destruct (AppContext.isLoading (appContext (app rt))); simpl in Hcount; lia.
    + exact Hcount.
Qed.

(** X6. Through the rendered pages the forecast, image and slogan
    requests never overlap: starting with the flag down and nothing in
    flight, after any sequence of user actions that the buttons allow
    and of settlements, at most one such request is in flight, and the
    global flag is up exactly while one is. *)
Theorem buttons_keep_global_requests_apart (s : AppState) (es : list event) :
  AppContext.isLoading (appContext s) = false ->
  let rt := uiRun Number_toString es (boot s) in
  globalInFlight rt
  = if AppContext.isLoading (appContext (app rt)) then 1 else 0.
Proof.
  intros Hdown rt. subst rt.
  assert (Hinit : flagExact (boot s)).
  { split; [apply Forall_nil|]. cbn. now rewrite Hdown. }
  generalize dependent (boot s). clear Hdown.
  induction es as [|e es IH]; intros rt Hinv; cbn [uiRun].
  - apply Hinv.
  - apply IH. now apply uiStep_flagExact.
Qed.

(** X7. No settlement touches what the user has entered: the chosen
    files, the prompt, the context, the link and the question are the
    same after any settlement as before it, so a failed request can be
    submitted again as it stands. *)
Theorem inputs_survive_settlement (s : AppState) (es : list event)
  (id : nat) (r : Http.result) :
  let rt := run Number_toString es (boot s) in
  let s' := app (settle id r rt) in
  forecast s' = forecast (app rt)
  /\ prompt (imageGenerator s') = prompt (imageGenerator (app rt))
  /\ context (sloganGenerator s') = context (sloganGenerator (app rt))
  /\ youtubeUrl (youTubeQA s') = youtubeUrl (youTubeQA (app rt))
  /\ question (youTubeQA s') = question (youTubeQA (app rt)).
Proof.
  intros rt s'. subst s' rt.
  destruct (inFlight id (run Number_toString es (boot s))) as [url|] eqn:Hflight.
  - destruct (settle_reached Number_toString s es id r url Hflight) as (Hend & -> & _).
    by_endpoint Hend; after_await; unfold acceptedBody; payload_cases;
      repeat split.
  - unfold settle. unfold inFlight in Hflight.
    destruct (take id (waiting (run Number_toString es (boot s)))) as [[p rest]|];
      [discriminate | repeat split].
Qed.

(** X8. A request is answered once and never repeated: when an
    exchange in flight settles, no new request is sent, that exchange
    alone leaves the waiting list, and exactly one notification is
    shown.  When the handler's [catch] clause ran (a network failure, a
    status outside 2xx, or a 2xx reply whose body is JSON [null], on
    which reading a property throws), the notification is an error and
    one line is written to the console; on every other reply, one
    without content included, the console is left alone. *)
Theorem settlement_notifies_once (s : AppState) (es : list event)
  (id : nat) (r : Http.result) (url : string) :
  let rt := run Number_toString es (boot s) in
  inFlight id rt = Some url ->
  let rt' := settle id r rt in
  sent rt' = sent rt
  /\ S (List.length (waiting rt')) = List.length (waiting rt)
  /\ exists t,
       toasts (app rt') = (toasts (app rt) ++ [t])%list
       /\ match acceptedBody r with
          | Some _ => console (app rt') = console (app rt)
          | None =>
              exists message label,
                t = ToastError message
                /\ console (app rt') = (console (app rt) ++ [label])%list
          end.
Proof.
  intros rt Hflight rt'. subst rt' rt.
  destruct (settle_reached Number_toString s es id r url Hflight)
    as (Hend & -> & -> & Hlen).
  split; [reflexivity|]. split; [assumption|].
  by_endpoint Hend; after_await;
    destruct (acceptedBody r) as [[st res img slo vid ans]|];
    payload_cases; eexists; (split; [reflexivity|]);
    try reflexivity; eexists _, _; split; reflexivity.
Qed.

End Flags.

(** ** Errors stay inside the handlers *)

Ltac awaited :=
  cbn;
  try match goal with
    | |- context [axios.settle ?x] =>
        destruct x as [[code [[st res img slo vid ans]|]]|]
    end;
  settle_cases;
  eexists _, _; (split; [reflexivity | cbn; lia]).

(** X9. None of the five request handlers lets an error out: whatever
    the backend answers, a network failure, a status outside 2xx and a
    null or empty body included, the handler runs to its end, having made at
    most one request. *)
Theorem handlers_catch_every_error :
  catchesEverything Forecast.handleRunForecast
  /\ catchesEverything ImageGenerator.handleGenerateImage
  /\ catchesEverything SloganGenerator.handleGenerateSlogans
  /\ catchesEverything YouTubeQA.handleProcessVideo
  /\ catchesEverything YouTubeQA.handleAskQuestion.
Proof.
  split; [|split; [|split; [|split]]]; intros transport s s0.
  - unfold Forecast.handleRunForecast.
    destruct (customersFile (forecast s)), (campaignHistoryFile (forecast s)); awaited.
  - unfold ImageGenerator.handleGenerateImage. destruct (negb _); awaited.
  - unfold SloganGenerator.handleGenerateSlogans. destruct (negb _); awaited.
  - unfold YouTubeQA.handleProcessVideo.
    destruct (negb _); [awaited|]. destruct (negb _); awaited.
  - unfold YouTubeQA.handleAskQuestion.
    destruct (negb _); [awaited|]. destruct (videoInfo (youTubeQA s)); awaited.
Qed.

(** ** Files chosen and the forecast request *)

Section Choices.

Variable Number_toString : number -> string.

Lemma choices_then_run (picks : list (option File.t * Forecast.uploadType))
  (rt : runtime) :
  let rt' := run Number_toString (map choose picks ++ [RunForecast]) rt in
  match lastChosen Forecast.customers picks (customersFile (forecast (app rt))),
        lastChosen Forecast.campaign picks (campaignHistoryFile (forecast (app rt)))
  with
  | Some c, Some h =>
      sent rt' = (sent rt ++ [forecastRequest c h])%list
      /\ AppContext.isLoading (appContext (app rt')) = true
  | _, _ =>
      sent rt' = sent rt
      /\ toasts (app rt')
         = (toasts (app rt) ++ [ToastError "Please upload both CSV files"])%list
      /\ appContext (app rt') = appContext (app rt)
  end.
Proof.
  revert rt. induction picks as [|[[f|] [|]] picks IH]; intros rt.
  - cbn [map app lastChosen run List.app step]. unfold call, Forecast.handleRunForecast.
    destruct (customersFile (forecast (app rt)));
      destruct (campaignHistoryFile (forecast (app rt))); cbn; repeat split.
  - exact (IH (step Number_toString (ChooseFile (Some f) Forecast.customers) rt)).
  - exact (IH (step Number_toString (ChooseFile (Some f) Forecast.campaign) rt)).
  - exact (IH (step Number_toString (ChooseFile None Forecast.customers) rt)).
  - exact (IH (step Number_toString (ChooseFile None Forecast.campaign) rt)).
Qed.

(** X10. The forecast request carries, under [customers_file] and
    [campaign_history_file], the file chosen last with each of the two
    pickers; a picker change that yields no file does not undo an
    earlier choice.  When one of the two has never yielded a file,
    nothing is sent: the page asks for both files and leaves the
    context as it was. *)
Theorem forecast_request_carries_last_chosen_files (s : AppState)
  (picks : list (option File.t * Forecast.uploadType)) :
  let rt := run Number_toString (map choose picks ++ [RunForecast]) (boot s) in
  match lastChosen Forecast.customers picks (customersFile (forecast s)),
        lastChosen Forecast.campaign picks (campaignHistoryFile (forecast s))
  with
  | Some c, Some h =>
      sent rt = [forecastRequest c h]
      /\ AppContext.isLoading (appContext (app rt)) = true
  | _, _ =>
      sent rt = []
      /\ toasts (app rt) = (toasts s ++ [ToastError "Please upload both CSV files"])%list
      /\ appContext (app rt) = appContext s
  end.
Proof. exact (choices_then_run picks (boot s)). Qed.

End Choices.

(** ** Blank text *)

Lemma trimStart_blank (s : string) :
  allWhiteSpace s = true -> JsString.trimStart s = "".
Proof.
  induction s as [|c s IH]; simpl; [reflexivity|].
  destruct (JsString.isWhiteSpace c); [exact IH | discriminate].
Qed.

Lemma trimStart_not_blank (s : string) :
  allWhiteSpace s = false ->
  exists c s', JsString.trimStart s = String c s' /\ JsString.isWhiteSpace c = false.
Proof.
  induction s as [|c s IH]; simpl; [discriminate|].
  destruct (JsString.isWhiteSpace c) eqn:Hc; [exact IH|].
  intros _. now exists c, s.
Qed.

(** [trim] leaves nothing exactly of the strings made of white space. *)
Lemma trim_blank (s : string) :
  negb (JsString.truthy (JsString.trim s)) = allWhiteSpace s.
Proof.
  destruct (allWhiteSpace s) eqn:Hs.
  - unfold JsString.trim. now rewrite (trimStart_blank s Hs).
  - destruct (trimStart_not_blank s Hs) as (c & s' & Hstart & Hc).
    pose proof (trim_truthy c s' Hc) as Htrim.
    unfold JsString.trim in *. rewrite Hstart.
    cbn [JsString.trimStart] in Htrim. rewrite Hc in Htrim.
    now rewrite Htrim.
Qed.

(** X11. What each text submission comes to is decided before any
    request.  A prompt or a context made of white space only is turned
    down with its own message; any other is sent as typed, untrimmed.
    A link made of white space only is turned down as missing, any
    other link that fails the pattern as invalid.  A question made of
    white space only is turned down as missing, before the held video
    is looked at; any other question is sent as typed when a video is
    held. *)
Theorem submissions_decided_locally (rt : runtime) :
  (let text := prompt (imageGenerator (app rt)) in
   let rt' := call ImageGenerator.handleGenerateImage rt in
   if allWhiteSpace text
   then sent rt' = sent rt
        /\ app rt'
           = showToast (ToastError "Please enter a prompt for image generation") (app rt)
   else sent rt' = (sent rt ++ [jsonRequest "/img" "prompt" text])%list)
  /\ (let text := context (sloganGenerator (app rt)) in
      let rt' := call SloganGenerator.handleGenerateSlogans rt in
      if allWhiteSpace text
      then sent rt' = sent rt
           /\ app rt'
              = showToast (ToastError "Please enter context for slogan generation")
                  (app rt)
      else sent rt' = (sent rt ++ [jsonRequest "/slogan" "context" text])%list)
  /\ (let text := youtubeUrl (youTubeQA (app rt)) in
      let rt' := call YouTubeQA.handleProcessVideo rt in
      if allWhiteSpace text
      then sent rt' = sent rt
           /\ app rt' = showToast (ToastError "Please enter a YouTube URL") (app rt)
      else if RegExp.test_anchored YouTubeQA.youtubeRegex text
      then sent rt' = (sent rt ++ [jsonRequest "/rag/process" "youtube_url" text])%list
      else sent rt' = sent rt
           /\ app rt'
              = showToast (ToastError "Please enter a valid YouTube URL") (app rt))
  /\ (let text := question (youTubeQA (app rt)) in
      let rt' := call YouTubeQA.handleAskQuestion rt in
      if allWhiteSpace text
      then sent rt' = sent rt
           /\ app rt' = showToast (ToastError "Please enter a question") (app rt)
      else
        match videoInfo (youTubeQA (app rt)) with
        | Some _ => sent rt' = (sent rt ++ [jsonRequest "/rag/query" "question" text])%list
        | None =>
            sent rt' = sent rt
            /\ app rt'
               = showToast (ToastError "Please process a video first") (app rt)
        end).
Proof.
  split; [|split; [|split]]; intros text rt'; subst rt' text; unfold call.
  - unfold ImageGenerator.handleGenerateImage. rewrite trim_blank.
    destruct (allWhiteSpace _); cbn; auto.
  - unfold SloganGenerator.handleGenerateSlogans. rewrite trim_blank.
    destruct (allWhiteSpace _); cbn; auto.
  - unfold YouTubeQA.handleProcessVideo. rewrite trim_blank.
    destruct (allWhiteSpace _); [cbn; auto|].
    destruct (RegExp.test_anchored _ _); cbn; auto.
  - unfold YouTubeQA.handleAskQuestion. rewrite trim_blank.
    destruct (allWhiteSpace _); [cbn; auto|].
    destruct (videoInfo _); cbn; auto.
Qed.

(** ** The upload component along its events *)

Section UploadRuns.

Variable Number_toString : number -> string.
Variable props : FileUpload.Props.

Lemma handleFileSelect_consistent (file : File.t) (st : FileUpload.State)
  (calls : list File.t) :
  uploadsConsistent props (st, calls) ->
  uploadsConsistent props
    (fst (FileUpload.handleFileSelect Number_toString props file st),
     (calls ++ snd (FileUpload.handleFileSelect Number_toString props file st))%list).
Proof.
  intros [Hfit Hlast]. cbn [fst snd] in *.
  destruct (FileUpload.tooLarge props file) eqn:Hsize.
  - rewrite handleFileSelect_tooLarge by assumption. cbn [fst snd].
    rewrite app_nil_r. split; assumption.
  - rewrite handleFileSelect_fits by assumption. cbn [fst snd]. split.
    + apply Forall_app. split; [assumption|]. now apply Forall_cons.
    + cbn. intros f [= <-]. now exists calls.
Qed.

Lemma uploadStep_consistent (e : uploadEvent) (c : FileUpload.State * list File.t) :
  uploadsConsistent props c ->
  uploadsConsistent props (uploadStep Number_toString props e c).
Proof.
  destruct c as [st calls]. intros Hc.
  destruct e as [[file|]|[|file files]| | |]; cbn [uploadStep].
  - unfold FileUpload.handleInputChange.
    pose proof (handleFileSelect_consistent file st calls Hc) as H.
    destruct (FileUpload.handleFileSelect Number_toString props file st). exact H.
  - cbn. now rewrite app_nil_r.
  - cbn. rewrite app_nil_r. exact Hc.
  - unfold FileUpload.handleDrop.
    assert (Hc' : uploadsConsistent props (FileUpload.setIsDragOver false st, calls))
      by exact Hc.
    pose proof (handleFileSelect_consistent file _ calls Hc') as H.
    destruct (FileUpload.handleFileSelect Number_toString props file _). exact H.
  - exact Hc.
  - exact Hc.
  - destruct Hc as [Hfit _]. split; [exact Hfit|]. cbn. discriminate.
Qed.

(** X12. Along any sequence of picker changes, drops, drag movements
    and clearings of the upload component, every file handed to
    [onFileSelect] is within the size limit, and whenever a file is
    shown as selected it is the file that was handed over last. *)
Theorem upload_selection_matches_callback (es : list uploadEvent) :
  uploadsConsistent props (uploadRun Number_toString props es (FileUpload.initial, [])).
Proof.
  assert (Hinit : uploadsConsistent props (FileUpload.initial, []))
    by (split; [apply Forall_nil | cbn; discriminate]).
  generalize dependent (FileUpload.initial, @nil File.t).
  induction es as [|e es IH]; intros c Hc; cbn [uploadRun]; [exact Hc|].
  apply IH. now apply uploadStep_consistent.
Qed.

End UploadRuns.

(** ** Thumbnails *)

Lemma append_length (a b : string) :
  String.length (a ++ b) = String.length a + String.length b.
Proof. induction a as [|c a IH]; simpl; [reflexivity | now rewrite IH]. Qed.

Lemma append_cancel_l (p a b : string) : p ++ a = p ++ b -> a = b.
Proof.
  induction p as [|c p IH]; simpl; intros H; [exact H|].
  injection H as H. now apply IH.
Qed.

Lemma append_cancel_r (s a b : string) : a ++ s = b ++ s -> a = b.
Proof.
  revert b. induction a as [|c a IH]; intros [|d b] H; simpl in H.
  - reflexivity.
  - apply (f_equal String.length) in H. simpl in H. rewrite append_length in H. lia.
  - apply (f_equal String.length) in H. simpl in H. rewrite append_length in H. lia.
  - injection H as -> H. f_equal. now apply IH.
Qed.

(** X13. Two videos with different identifiers never get the same
    thumbnail address. *)
Theorem thumbnails_differ (a b : string) :
  a <> b -> getVideoThumbnail a <> getVideoThumbnail b.
Proof.
  intros Hne H. apply Hne. unfold getVideoThumbnail in H.
  apply append_cancel_l in H. now apply append_cancel_r in H.
Qed.

(** ** What the buttons rule out *)

Lemma afterAwait_toast (url : string) (r : Http.result) (s : AppState) :
  isEndpoint url = true ->
  exists t,
    toasts (afterAwait url r s) = (toasts s ++ [t])%list
    /\ reportsMissingInput t = false.
Proof.
  intros Hend. by_endpoint Hend; after_await; unfold acceptedBody;
    payload_cases; eexists; split; reflexivity.
Qed.

Section Buttons.

Variable Number_toString : number -> string.

Lemma uiStep_toasts (e : event) (rt : runtime) :
  Forall resumesAsWritten (waiting rt) ->
  exists new,
    toasts (app (uiStep Number_toString e rt)) = (toasts (app rt) ++ new)%list
    /\ forallb (fun t => negb (reportsMissingInput t)) new = true.
Proof.
  intros Hw. unfold uiStep.
  destruct (unavailable e (app rt)) eqn:Hav;
    [exists []; now rewrite app_nil_r|].
  destruct e as [file type| |v| | |v| | |v| |v| |id r]; cbn [step]; unfold call.
  - exists []. rewrite app_nil_r. destruct file as [f|]; [destruct type|]; split; reflexivity.
  - cbn in Hav. unfold Forecast.runDisabled in Hav.
    unfold Forecast.handleRunForecast.
    destruct (customersFile (forecast (app rt))); [|discriminate].
    destruct (campaignHistoryFile (forecast (app rt))); [|discriminate].
    exists []. now rewrite app_nil_r.
  - exists []. now rewrite app_nil_r.
  - cbn in Hav. apply orb_false_elim in Hav as [Hstored _].
    unfold ImageGenerator.generatePromptFromForecast.
    destruct (AppContext.forecastResults (appContext (app rt))); [|discriminate].
    exists []. now rewrite app_nil_r.
  - cbn in Hav. apply orb_false_elim in Hav as [Hblank _].
    unfold ImageGenerator.handleGenerateImage. rewrite Hblank.
    exists []. now rewrite app_nil_r.
  - exists []. now rewrite app_nil_r.
  - cbn in Hav. apply orb_false_elim in Hav as [Hstored _].
    unfold SloganGenerator.generateContextFromForecast.
    destruct (AppContext.forecastResults (appContext (app rt))); [|discriminate].
    exists []. now rewrite app_nil_r.
  - cbn in Hav. apply orb_false_elim in Hav as [Hblank _].
    unfold SloganGenerator.handleGenerateSlogans. rewrite Hblank.
    exists []. now rewrite app_nil_r.
  - exists []. now rewrite app_nil_r.
  - cbn in Hav. apply orb_false_elim in Hav as [Hblank _].
    unfold YouTubeQA.handleProcessVideo. cbn zeta. rewrite Hblank.
    destruct (negb (RegExp.test_anchored _ _)).
    + eexists [_]. split; reflexivity.
    + exists []. now rewrite app_nil_r.
  - exists []. now rewrite app_nil_r.
  - cbn in Hav. apply orb_false_elim in Hav as [Hav _].
    apply orb_false_elim in Hav as [Hheld Hblank].
    unfold YouTubeQA.handleAskQuestion. rewrite Hblank.
    destruct (videoInfo (youTubeQA (app rt))); [|discriminate].
    exists []. now rewrite app_nil_r.
  - unfold settle.
    destruct (take id (waiting rt)) as [[p rest]|] eqn:Htake;
      [|exists []; now rewrite app_nil_r].
    destruct (take_Some _ _ _ _ Htake) as [Hin _].
    rewrite Forall_forall in Hw. destruct (Hw p Hin) as [Hend Hres].
    rewrite Hres. cbn [app].
    destruct (afterAwait_toast _ r (app rt) Hend) as (t & -> & Ht).
    exists [t]. split; [reflexivity|]. cbn. now rewrite Ht.
Qed.

Lemma uiStep_written (e : event) (rt : runtime) :
  Forall resumesAsWritten (waiting rt) ->
  Forall resumesAsWritten (waiting (uiStep Number_toString e rt)).
Proof.
  intros Hw. unfold uiStep. destruct (unavailable e (app rt)); [assumption|].
  now apply step_written.
Qed.

(** X15. Through the rendered pages no submission is ever turned down
    for lacking its input: along any sequence of user actions that the
    buttons allow and of settlements, none of the notifications shown
    is one of the missing-input messages of the handlers (both files,
    prompt, context, link, question, video, forecast). *)
Theorem buttons_rule_out_missing_input (s : AppState) (es : list event) :
  exists new,
    toasts (app (uiRun Number_toString es (boot s))) = (toasts s ++ new)%list
    /\ forallb (fun t => negb (reportsMissingInput t)) new = true.
Proof.
  assert (Hgen : forall rt,
             Forall resumesAsWritten (waiting rt) ->
             exists new,
               toasts (app (uiRun Number_toString es rt)) = (toasts (app rt) ++ new)%list
               /\ forallb (fun t => negb (reportsMissingInput t)) new = true).
  { induction es as [|e es IH]; intros rt Hw; cbn [uiRun].
    - exists []. now rewrite app_nil_r.
    - destruct (uiStep_toasts e rt Hw) as (new1 & H1 & Hok1).
      destruct (IH _ (uiStep_written e rt Hw)) as (new2 & H2 & Hok2).
      exists (new1 ++ new2)%list. split.
      + now rewrite H2, H1, app_assoc.
      + now rewrite forallb_app, Hok1, Hok2. }
  exact (Hgen (boot s) (Forall_nil _)).
Qed.

End Buttons.

(** ** Forecast responses arrive in the order of their requests (C1) *)







Section Order.

Variable Number_toString : number -> string.








(** While the loading flag is up the Run Forecast button does nothing:
    a forecast cannot be submitted again before it has settled. *)
Lemma resubmission_does_nothing (rt : runtime) :
  AppContext.isLoading (appContext (app rt)) = true ->
  uiStep Number_toString RunForecast rt = rt.
Proof.
  intros Hup. unfold uiStep. cbn [unavailable].
  now rewrite (runDisabled_while_loading _ Hup).
Qed.

End Order.

(** Two forecasts run one after the other on the page, with a click on
    the disabled button and an image request in between: the responses
    are delivered under tickets 0 and 2, and the store ends with the
    second. *)
Example forecasts_in_order_on_the_page :
  let es :=
    (filesChosen
     ++ [RunForecast; RunForecast; Settle 0 (forecastOk (sampleForecast "Older"));
         EditPrompt "a poster"; GenerateImage; Settle 1 (imageOk "https://cdn/poster.png");
         RunForecast; Settle 2 (forecastOk (sampleForecast "Newer"))])%list in
  map fst (forecastsDelivered sampleToString es (boot initialState)) = [0; 2]
  /\ AppContext.forecastResults
       (appContext (app (uiRun sampleToString es (boot initialState))))
     = Some (sampleForecast "Newer").
Proof. split; reflexivity. Qed.

(** ** From the stored forecast to a request *)

Section UseForecast.

Variable Number_toString : number -> string.

(** X14. With a forecast in the store, "use forecast data" followed by
    the generate button always gets a request out: the text filled in
    is never blank, it replaces whatever was typed before, and the
    image request, respectively the slogan request, carries exactly
    that text, with the recommended campaign type in it. *)
Theorem forecast_text_is_sent (rt : runtime) (fr : AppContext.ForecastResults) :
  AppContext.forecastResults (appContext (app rt)) = Some fr ->
  (let rt' := run Number_toString [UseForecastForPrompt; GenerateImage] rt in
   let text := prompt (imageGenerator (app rt')) in
   sent rt' = (sent rt ++ [jsonRequest "/img" "prompt" text])%list
   /\ JsString.occursIn (AppContext.recommended_campaign_type fr) text)
  /\ (let rt' := run Number_toString [UseForecastForContext; GenerateSlogans] rt in
      let text := context (sloganGenerator (app rt')) in
      sent rt' = (sent rt ++ [jsonRequest "/slogan" "context" text])%list
      /\ JsString.occursIn (AppContext.recommended_campaign_type fr) text).
Proof.
  intros Hstored. split; intros rt' text; subst text rt'; cbn [run].
  - set (filled :=
           "Create a marketing image for a "
           ++ AppContext.recommended_campaign_type fr
           ++ " campaign with "
           ++ AppContext.recommended_offer fr
           ++ ". Target audience: "
           ++ AppContext.target (AppContext.campaign_details fr)
           ++ ". Professional, modern design with engaging visuals.").
    assert (Hfill : step Number_toString UseForecastForPrompt rt
                    = {| app := setPrompt filled (app rt); sent := sent rt;
                         waiting := waiting rt |}).
    { cbn [step]. unfold call, ImageGenerator.generatePromptFromForecast.
      rewrite Hstored. reflexivity. }
    assert (Hgiven : JsString.truthy (JsString.trim filled) = true)
      by exact (trim_truthy "C" _ eq_refl).
    rewrite Hfill. cbn [step]. unfold call, ImageGenerator.handleGenerateImage.
    cbn [app imageGenerator setPrompt updImageGenerator prompt].
    rewrite Hgiven. cbn. split; [reflexivity|].
    exists "Create a marketing image for a ". eexists. reflexivity.
  - set (filled :=
           "Campaign Type: "
           ++ AppContext.recommended_campaign_type fr
           ++ SloganGenerator.newline ++ "Offer: "
           ++ AppContext.recommended_offer fr
           ++ SloganGenerator.newline ++ "Target Audience: "
           ++ AppContext.target (AppContext.campaign_details fr)
           ++ SloganGenerator.newline ++ "Discount: "
           ++ Number_toString (AppContext.discount (AppContext.campaign_details fr))
           ++ "%" ++ SloganGenerator.newline ++ "Budget: $"
           ++ Number_toString (AppContext.budget (AppContext.campaign_details fr))).
    assert (Hfill : step Number_toString UseForecastForContext rt
                    = {| app := setContext filled (app rt); sent := sent rt;
                         waiting := waiting rt |}).
    { cbn [step]. unfold call, SloganGenerator.generateContextFromForecast.
      rewrite Hstored. reflexivity. }
    assert (Hgiven : JsString.truthy (JsString.trim filled) = true)
      by exact (trim_truthy "C" _ eq_refl).
    rewrite Hfill. cbn [step]. unfold call, SloganGenerator.handleGenerateSlogans.
    cbn [app sloganGenerator setContext updSloganGenerator context].
    rewrite Hgiven. cbn. split; [reflexivity|].
    exists "Campaign Type: ". eexists. reflexivity.
Qed.

End UseForecast.

(** ** Instances *)

Lemma image_replaced_only_on_success_witness :
  let rt := run sampleToString [EditPrompt "a poster"; GenerateImage] (boot initialState) in
  generatedImage (imageGenerator (app (settle 0 (imageOk "https://cdn/poster.png") rt)))
  = Some "https://cdn/poster.png".
Proof.
  exact (proj1 (image_replaced_only_on_success sampleToString initialState
    [EditPrompt "a poster"; GenerateImage] 0 (imageOk "https://cdn/poster.png") eq_refl)).
Defined.

Lemma slogans_replaced_only_on_success_witness :
  let rt := run sampleToString [EditContext "spring sale"; GenerateSlogans]
              (boot (setSlogans ["Old slogan"] initialState)) in
  slogans (sloganGenerator (app (settle 0 (slogansOk []) rt))) = []
  /\ slogans (sloganGenerator (app (settle 0 Http.NetworkError rt))) = ["Old slogan"].
Proof.
  split.
  - exact (proj1 (slogans_replaced_only_on_success sampleToString
      (setSlogans ["Old slogan"] initialState)
      [EditContext "spring sale"; GenerateSlogans] 0 (slogansOk []) eq_refl)).
  - exact (proj1 (slogans_replaced_only_on_success sampleToString
      (setSlogans ["Old slogan"] initialState)
      [EditContext "spring sale"; GenerateSlogans] 0 Http.NetworkError eq_refl)).
Defined.

Lemma answer_replaced_only_on_success_witness :
  let rt := run sampleToString
              (videoHeld ++ [EditQuestion "What is this about?"; AskQuestion])
              (boot (setAnswer "An earlier answer" initialState)) in
  answer (youTubeQA (app (settle 1 (answerOk "") rt))) = "An earlier answer"
  /\ answer (youTubeQA (app (settle 1 (answerOk "It is about sales.") rt)))
     = "It is about sales.".
Proof.
  split.
  - exact (proj1 (answer_replaced_only_on_success sampleToString
      (setAnswer "An earlier answer" initialState)
      (videoHeld ++ [EditQuestion "What is this about?"; AskQuestion])
      1 (answerOk "") eq_refl)).
  - exact (proj1 (answer_replaced_only_on_success sampleToString
      (setAnswer "An earlier answer" initialState)
      (videoHeld ++ [EditQuestion "What is this about?"; AskQuestion])
      1 (answerOk "It is about sales.") eq_refl)).
Defined.

Lemma ingested_video_replaces_held_one_witness :
  let rt := run sampleToString
              (videoHeld ++ [EditYoutubeUrl "https://youtu.be/other"; ProcessVideo])
              (boot initialState) in
  let other := {| video_id := "other"; url := "https://youtu.be/other";
                  chunk_count := 7%float; title := None |} in
  videoInfo (youTubeQA (app (settle 1 (videoOk other) rt))) = Some other.
Proof.
  exact (proj1 (ingested_video_replaces_held_one sampleToString initialState
    (videoHeld ++ [EditYoutubeUrl "https://youtu.be/other"; ProcessVideo]) 1
    (videoOk {| video_id := "other"; url := "https://youtu.be/other";
                chunk_count := 7%float; title := None |})
    {| video_id := "other"; url := "https://youtu.be/other";
       chunk_count := 7%float; title := None |} eq_refl eq_refl)).
Defined.

Lemma global_flag_lowered_by_any_settlement_witness :
  let rt := run sampleToString
              (filesChosen ++ [RunForecast; EditPrompt "a poster"; GenerateImage])
              (boot initialState) in
  let rt' := settle 1 (imageOk "https://cdn/poster.png") rt in
  AppContext.isLoading (appContext (app rt')) = false
  /\ inFlight 0 rt' = Some "/forecast".
Proof.
  split; [|reflexivity].
  exact (proj1 (global_flag_lowered_by_any_settlement sampleToString initialState
    (filesChosen ++ [RunForecast; EditPrompt "a poster"; GenerateImage]) 1
    (imageOk "https://cdn/poster.png") "/img" eq_refl eq_refl)).
Defined.

Lemma buttons_keep_global_requests_apart_witness :
  globalInFlight
    (uiRun sampleToString
       (filesChosen ++ [RunForecast; EditPrompt "a poster"; GenerateImage; RunForecast])
       (boot initialState))
  = 1.
Proof.
  exact (buttons_keep_global_requests_apart sampleToString initialState
    (filesChosen ++ [RunForecast; EditPrompt "a poster"; GenerateImage; RunForecast])
    eq_refl).
Defined.

Lemma settlement_notifies_once_witness :
  let rt := run sampleToString (filesChosen ++ [RunForecast]) (boot initialState) in
  sent (settle 0 (jsonResponse 503 Backend.empty) rt) = sent rt.
Proof.
  exact (proj1 (settlement_notifies_once sampleToString initialState
    (filesChosen ++ [RunForecast]) 0 (jsonResponse 503 Backend.empty) "/forecast"
    eq_refl)).
Defined.

Lemma thumbnails_differ_witness :
  getVideoThumbnail "abc123" <> getVideoThumbnail "abc124".
Proof.
  apply thumbnails_differ. discriminate.
Defined.

Lemma forecast_text_is_sent_witness :
  let rt := boot (setForecastResults (Some (sampleForecast "Email")) initialState) in
  List.length (sent (run sampleToString [UseForecastForPrompt; GenerateImage] rt)) = 1.
Proof.
  exact (f_equal (@List.length Http.request)
    (proj1 (proj1 (forecast_text_is_sent sampleToString
      (boot (setForecastResults (Some (sampleForecast "Email")) initialState))
      (sampleForecast "Email") eq_refl)))).
Defined.
